(** * Wide-to-long reshaping of stock spreadsheets

    A shallow embedding of [wide_to_long.py], [multi_file_converter.py] and
    [quarterly_files.py].  The scripts are pandas programs: a loaded sheet is
    a [DataFrame], the reshaped table a [LongFrame], and the spreadsheet
    reader, the CSV writer, the text-to-number parser and the string
    conversion of scalars are collaborators outside the repository, taken
    here as the members of two interfaces ([Values] and [Files]).  File
    access and console output are threaded through a small state-and-error
    monad over a [world].

    [DataFrame.melt] selects columns by label: it raises when the name of
    the value column is already a column label or when the identifier
    label names more than one column, and [melt] raises with it.  When it
    returns, the records are those found by position, and the result has
    the three columns the scripts expect as long as the identifier label,
    [Stock], [Date] and the name of the value column do not coincide;
    [melt_labels_ok] states this, and every property of a melted table is
    stated under it. *)

From Stdlib Require Import ZArith Lia Ascii.
From stdpp Require Import base list strings gmap.

(** ** Binary64 arithmetic of the coercion threshold

    [len(numeric_values) * 0.8] is a product of Python floats and the
    comparison with the count of parsed values is a comparison of doubles.
    Non-negative doubles are represented by their numerator over [2^53];
    [round53] rounds a non-negative integer to 53 significant bits, ties to
    even. *)

Module Binary64.
Local Open Scope Z_scope.

Definition round53 (p : Z) : Z :=
  let s := Z.max 0 (Z.log2 p - 52) in
  let q := p / 2 ^ s in
  let r := p mod 2 ^ s in
  if (2 ^ s <? 2 * r) || ((2 ^ s =? 2 * r) && Z.odd q)
  then (q + 1) * 2 ^ s
  else q * 2 ^ s.

(** The literal [0.8] denotes the double [m08 / 2^53]. *)
Definition m08 : Z := 7205759403792794.

Definition float_of_int (n : Z) : Z := round53 n.

(** [n * 0.8], as a numerator over [2^53]. *)
Definition mul_08 (n : Z) : Z := round53 (float_of_int n * m08).

(** [k > x] for an integer [k] and a double [x] given over [2^53]. *)
Definition int_gt_float (k x : Z) : bool := x <? float_of_int k * 2 ^ 53.

End Binary64.

(** [numeric_values.notna().sum() > len(numeric_values) * 0.8] *)
Definition exceeds_threshold (k n : nat) : bool :=
  Binary64.int_gt_float (Z.of_nat k) (Binary64.mul_08 (Z.of_nat n)).

(** ** Values, cells and frames *)

Inductive dtype := object | int64 | float64 | bool_ | datetime64.

Inductive exception := Exception (name message : string).

(** [str(e)] *)
Definition str_of_exception (e : exception) : string :=
  match e with Exception _ message => message end.

(** [labels[0]] on an empty sequence of labels. *)
Definition IndexError : exception :=
  Exception "IndexError" "index 0 is out of bounds for axis 0 with size 0".

(** [df.iloc[0]] on a table without rows. *)
Definition IlocIndexError : exception :=
  Exception "IndexError" "single positional indexer is out-of-bounds".

(** [df.melt(..., value_name=name)] on a table with a column labelled
    [name]. *)
Definition ValueNameError (name : string) : exception :=
  Exception "ValueError"
    ("value_name (" +:+ name +:+ ") cannot match an element in the DataFrame columns.").

(** Scalars are the cell values that are neither text nor null (numbers,
    timestamps, booleans).  [to_numeric] is [pd.to_numeric(errors='coerce')]
    on one text, [None] standing for the resulting NaN; [astype_str] is
    Python's [str] on a scalar; [scalar_eqb] is [==] on two scalars used as
    column labels.  [duplicate_id_error] is the error [DataFrame.melt] ends
    with when its identifier label names more than one column, whose kind
    and text depend on the pandas release. *)
Class Values := {
  scalar : Type;
  to_numeric : string → option scalar;
  astype_str : scalar → string;
  scalar_eqb : scalar → scalar → bool;
  duplicate_id_error : exception
}.

Section frames.
Context `{V : Values}.

Inductive cell := NA | Str (s : string) | Val (v : scalar).

(** A loaded sheet: column labels, the storage type of each column, the
    row labels and the rows of cells. *)
Record DataFrame := {
  columns : list cell;
  dtypes : list dtype;
  index : list nat;
  data : list (list cell)
}.

Record LongRecord := { Date : cell; Stock : cell; Value : cell }.

(** The melted table: the name of its identifier column, the name of its
    value column (the middle column is always [Stock]) and the labelled
    rows. *)
Record LongFrame := {
  id_name : cell;
  value_name : string;
  lrows : list (nat * LongRecord)
}.

Definition records (long_df : LongFrame) : list LongRecord := (lrows long_df).*2.

Definition len (long_df : LongFrame) : nat := length (lrows long_df).

Definition with_rows (long_df : LongFrame) (rows : list (nat * LongRecord)) : LongFrame :=
  {| id_name := id_name long_df; value_name := value_name long_df; lrows := rows |}.

Definition set_value (r : LongRecord) (c : cell) : LongRecord :=
  {| Date := Date r; Stock := Stock r; Value := c |}.

(** The cell at row [i], column [j]. *)
Definition cell_at (df : DataFrame) (i j : nat) : option cell :=
  data df !! i ≫= λ row, row !! j.

(** ** pandas operations used by the scripts *)

Definition dtype_eqb (a b : dtype) : bool :=
  match a, b with
  | object, object | int64, int64 | float64, float64
  | bool_, bool_ | datetime64, datetime64 => true
  | _, _ => false
  end.

Definition is_real (d : dtype) : bool :=
  match d with int64 | float64 => true | _ => false end.

(** Storage type of a concatenation of columns: the shared type if there
    is one, [float64] for a mix of integer and float columns, [object]
    otherwise. *)
Definition find_common_type (ds : list dtype) : dtype :=
  match ds with
  | [] => float64
  | d :: rest =>
      if forallb (dtype_eqb d) rest then d
      else if forallb is_real ds then float64
      else object
  end.

(** Equality of two column labels, and [label in labels]. *)
Definition label_eqb (a b : cell) : bool :=
  match a, b with
  | NA, NA => true
  | Str s, Str t => String.eqb s t
  | Val v, Val u => scalar_eqb v u
  | _, _ => false
  end.

Definition has_label (label : cell) (labels : list cell) : bool :=
  existsb (label_eqb label) labels.

(** The frame [df.melt] builds when it returns: the value columns one
    after the other, each paired with the identifier column, under a fresh
    row index.  [date_col] is the label of column 0 and [stock_cols] the
    labels of the columns after it, in order. *)
Definition melt_column (df : DataFrame) (j : nat) (label : cell) : list LongRecord :=
  (λ row, {| Date := nth 0 row NA; Stock := label; Value := nth (S j) row NA |}) <$> data df.

Definition melt_frame (df : DataFrame) (date_col : cell) (stock_cols : list cell)
    (value_column_name : string) : LongFrame :=
  let recs := concat (imap (melt_column df) stock_cols) in
  {| id_name := date_col;
     value_name := value_column_name;
     lrows := zip (seq 0 (length recs)) recs |}.

(** [df.melt(id_vars=[date_col], value_vars=stock_cols, var_name='Stock',
    value_name=value_column_name)].  It first refuses a value name that is
    one of the column labels, and fails on an identifier label that is
    also the label of a value column, which it cannot take out as one
    column. *)
Definition melt (df : DataFrame) (date_col : cell) (stock_cols : list cell)
    (value_column_name : string) : exception + LongFrame :=
  if has_label (Str value_column_name) (columns df) then
    inl (ValueNameError value_column_name)
  else if has_label date_col stock_cols then inl duplicate_id_error
  else inr (melt_frame df date_col stock_cols value_column_name).

(** Storage type of the melted value column. *)
Definition melt_dtype (df : DataFrame) : dtype := find_common_type (drop 1 (dtypes df)).

(** [long_df.rename(columns={date_col: 'Date'})] *)
Definition rename_date (long_df : LongFrame) : LongFrame :=
  {| id_name := Str "Date"; value_name := value_name long_df; lrows := lrows long_df |}.

Definition isna (c : cell) : bool :=
  match c with NA => true | _ => false end.

(** [c != s] for a text [s]: only a text cell can be equal to a text. *)
Definition ne_str (s : string) (c : cell) : bool :=
  match c with Str t => negb (String.eqb t s) | _ => true end.

(** [long_df.dropna(subset=[value_column_name])] *)
Definition dropna (long_df : LongFrame) : LongFrame :=
  with_rows long_df (List.filter (λ r, negb (isna (Value r.2))) (lrows long_df)).

(** [long_df[long_df[value_column_name] != s]] *)
Definition drop_eq (s : string) (long_df : LongFrame) : LongFrame :=
  with_rows long_df (List.filter (λ r, ne_str s (Value r.2)) (lrows long_df)).

(** The three filtering statements that follow every melt. *)
Definition sentinel_filter (long_df : LongFrame) : LongFrame :=
  drop_eq EmptyString (drop_eq "-" (dropna long_df)).

(** [long_df.reset_index(drop=True)] *)
Definition reset_index (long_df : LongFrame) : LongFrame :=
  with_rows long_df (zip (seq 0 (len long_df)) (records long_df)).

(** [str.replace(',', '')] *)
Fixpoint str_replace_comma (s : string) : string :=
  match s with
  | EmptyString => EmptyString
  | String c rest =>
      if Ascii.eqb c ","%char then str_replace_comma rest
      else String c (str_replace_comma rest)
  end.

(** [astype(str)] on one cell. *)
Definition astype_str_cell (c : cell) : string :=
  match c with
  | NA => "nan"
  | Str s => s
  | Val v => astype_str v
  end.

(** [astype(str).str.replace(',', '')] on one cell. *)
Definition clean_text (c : cell) : string := str_replace_comma (astype_str_cell c).

(** [long_df[col] = long_df[col].astype(str).str.replace(',', '')] *)
Definition strip_commas (long_df : LongFrame) : LongFrame :=
  with_rows long_df ((λ r, (r.1, set_value r.2 (Str (clean_text (Value r.2))))) <$> lrows long_df).

(** [pd.to_numeric(long_df[col], errors='coerce')] on a column of text. *)
Definition numeric_cell (c : cell) : cell :=
  match c with
  | Str s => match to_numeric s with Some v => Val v | None => NA end
  | c => c
  end.

Definition numeric_values (long_df : LongFrame) : list cell :=
  (λ r, numeric_cell (Value r)) <$> records long_df.

(** [numeric_values.notna().sum()] *)
Definition notna_sum (values : list cell) : nat :=
  length (List.filter (λ c, negb (isna c)) values).

(** [long_df[col] = numeric_values] *)
Definition assign_numeric (long_df : LongFrame) : LongFrame :=
  with_rows long_df ((λ r, (r.1, set_value r.2 (numeric_cell (Value r.2)))) <$> lrows long_df).

(** Lines 51-59 of [multi_file_converter.py]: the guarded coercion of the
    general pipeline, [dt] being the storage type of the value column. *)
Definition clean_numeric (dt : dtype) (long_df : LongFrame) : LongFrame :=
  if dtype_eqb dt object then
    let long_df := strip_commas long_df in
    let numeric_values := numeric_values long_df in
    if exceeds_threshold (notna_sum numeric_values) (length numeric_values) then
      let long_df := assign_numeric long_df in
      dropna long_df
    else long_df
  else long_df.

(** Lines 86-88 of [quarterly_files.py]: the coercion of the book-value
    variant. *)
Definition clean_book_value (long_df : LongFrame) : LongFrame :=
  let long_df := strip_commas long_df in
  let long_df := assign_numeric long_df in
  dropna long_df.

(** [df.iloc[1:]]: the rows after the first, under the labels they had. *)
Definition iloc_from_1 (df : DataFrame) : DataFrame :=
  {| columns := columns df; dtypes := dtypes df;
     index := drop 1 (index df); data := drop 1 (data df) |}.

(** [df.reset_index(drop=True)] on a loaded table. *)
Definition reset_row_index (df : DataFrame) : DataFrame :=
  {| columns := columns df; dtypes := dtypes df;
     index := seq 0 (length (data df)); data := data df |}.

(** [df.columns = labels] *)
Definition set_columns (df : DataFrame) (labels : list cell) : DataFrame :=
  {| columns := labels; dtypes := dtypes df; index := index df; data := data df |}.

(** Lines 21-25 (and again 62-64) of [quarterly_files.py]: row 0 is taken
    as the header, dropped from the body, the rows are labelled afresh
    and the captured labels become the column names.  [df.iloc[0]] fails
    on a table without rows. *)
Definition promote_header (df : DataFrame) : exception + DataFrame :=
  match data df with
  | [] => inl IlocIndexError
  | actual_columns :: _ =>
      let data_rows := reset_row_index (iloc_from_1 df) in
      inr (set_columns data_rows actual_columns)
  end.

(** [date_col = labels[0]; stock_cols = labels[1:]], the column roles of
    every script; the first fails when there is no column. *)
Definition column_roles (labels : list cell) : exception + (cell * list cell) :=
  match labels with
  | [] => inl IndexError
  | date_col :: stock_cols => inr (date_col, stock_cols)
  end.

(** Every row has one cell per column, and the labels and storage types
    are as many as the rows and columns. *)
Record rectangular (df : DataFrame) : Prop := {
  rect_rows : Forall (λ row, length row = length (columns df)) (data df);
  rect_index : length (index df) = length (data df);
  rect_dtypes : length (dtypes df) = length (columns df)
}.

End frames.

(** ** Files, console and the effects of the scripts *)

(** The spreadsheet reader applied to the bytes of an existing file, the
    CSV rendering of a long table, and the [min()]/[max()] of a column that
    the scripts print, which raise on values that cannot be ordered.
    [open_error] is the error with which [to_csv] fails on a path it
    cannot open for writing, such as the [OSError] for a path into a
    directory that does not exist; [repr_other] is Python's [repr] on the
    paths that hold more than plain characters. *)
Class Files `{V : Values} := {
  content : Type;
  read_sheet : content → exception + DataFrame;
  csv_of : LongFrame → content;
  min_max : list cell → option exception;
  open_error : string → option exception;
  repr_other : string → string
}.

(** The printed lines that carry computed data. *)
Inductive line :=
  | Found (rows stocks : nat)
  | FoundPeriods (periods : nat) (stocks : Z)
  | Removed (removed_rows : nat)
  | Complete (final_rows : nat)
  | Saving (csv_filename : string)
  | Fixed (rows : nat)
  | ErrorFixing (what message : string)
  | NotFound (file : string)
  | ErrorProcessing (file message : string)
  | Status (success : bool) (description : string) (rows : nat)
  | Output (output_file : string)
  | ErrorLine (message : string)
  | Summary (successful total : nat)
  | TotalPoints (total_rows : nat).

(** [os.path.basename] and the root of [os.path.splitext] (on a name
    without separator). *)
Fixpoint has_char (a : ascii) (s : string) : bool :=
  match s with
  | EmptyString => false
  | String c rest => Ascii.eqb c a || has_char a rest
  end.

Fixpoint basename (p : string) : string :=
  match p with
  | EmptyString => EmptyString
  | String c rest =>
      if has_char "/" rest then basename rest
      else if Ascii.eqb c "/" then rest else p
  end.

Fixpoint before_last_dot (s : string) : string :=
  match s with
  | EmptyString => EmptyString
  | String c rest =>
      if has_char "." rest then String c (before_last_dot rest)
      else if Ascii.eqb c "." then EmptyString else s
  end.

Fixpoint splitext_root (p : string) : string :=
  match p with
  | EmptyString => EmptyString
  | String c rest =>
      if Ascii.eqb c "." then String c (splitext_root rest)
      else before_last_dot p
  end.

(** [f"{base_name}{output_suffix}_long_format.csv"] *)
Definition csv_name (file_path output_suffix : string) : string :=
  let base_name := splitext_root (basename file_path) in
  base_name +:+ output_suffix +:+ "_long_format.csv".

Record file_config := {
  file : string;
  suffix : string;
  config_value_name : string;
  description : string
}.

Record conversion_result := {
  original_file : string;
  output_file : option string;
  result_description : string;
  rows : nat;
  success : bool;
  error : option string
}.

(** The literal list of [convert_all_stock_files]. *)
Definition files_config : list file_config :=
  [ {| file := "stock price.xlsx"; suffix := "_prices";
       config_value_name := "Price"; description := "Stock Prices" |};
    {| file := "tv.xlsx"; suffix := "_volume";
       config_value_name := "Volume"; description := "Trading Volume" |};
    {| file := "mkt cap.xlsx"; suffix := "_market_cap";
       config_value_name := "MarketCap"; description := "Market Capitalization" |};
    {| file := "book value.xlsx"; suffix := "_book_value";
       config_value_name := "BookValue"; description := "Book Value (Quarterly)" |};
    {| file := "announcemnet date.xlsx"; suffix := "_announcement";
       config_value_name := "AnnouncementDate"; description := "Announcement Dates" |} ].

Section scripts.
Context `{F : Files}.

(** [repr(path)]: between single quotes when the path holds printable
    ASCII characters other than the quote and the backslash. *)
Definition plain_char (c : ascii) : bool :=
  let n := nat_of_ascii c in
  (32 <=? n) && (n <=? 126) && negb (Ascii.eqb c "'") && negb (Ascii.eqb c "\").

Fixpoint plain (s : string) : bool :=
  match s with
  | EmptyString => true
  | String c rest => plain_char c && plain rest
  end.

Definition repr (path : string) : string :=
  if plain path then "'" +:+ path +:+ "'" else repr_other path.

(** The error of [open] on a path that does not exist. *)
Definition FileNotFoundError (path : string) : exception :=
  Exception "FileNotFoundError" ("[Errno 2] No such file or directory: " +:+ repr path).

Record world := { disk : gmap string content; console : list line }.

(** Computations that read and write the world and may raise. *)
Definition M (A : Type) : Type := world → (exception + A) * world.

#[export] Instance M_ret : MRet M := λ A a w, (inr a, w).

#[export] Instance M_bind : MBind M := λ A B k m w,
  match m w with
  | (inl e, w') => (inl e, w')
  | (inr a, w') => k a w'
  end.

Definition raise {A} (e : exception) : M A := λ w, (inl e, w).

(** [try: body except Exception as e: handler(e)] *)
Definition try_except {A} (body : M A) (handler : exception → M A) : M A := λ w,
  match body w with
  | (inl e, w') => handler e w'
  | (inr a, w') => (inr a, w')
  end.

Definition lift {A} (r : exception + A) : M A := λ w, (r, w).

Definition print (l : line) : M unit := λ w,
  (inr (), {| disk := disk w; console := console w ++ [l] |}).

(** [os.path.exists] *)
Definition exists_ (path : string) : M bool := λ w,
  (inr (bool_decide (is_Some (disk w !! path))), w).

(** [pd.read_excel] *)
Definition read_excel (path : string) : M DataFrame := λ w,
  match disk w !! path with
  | None => (inl (FileNotFoundError path), w)
  | Some c => (read_sheet c, w)
  end.

(** [long_df.to_csv(csv_filename, index=False)] *)
Definition to_csv (csv_filename : string) (long_df : LongFrame) : M unit := λ w,
  match open_error csv_filename with
  | Some e => (inl e, w)
  | None =>
      (inr (), {| disk := <[csv_filename := csv_of long_df]> (disk w); console := console w |})
  end.

(** The printed range of a column. *)
Definition print_range (values : list cell) : M unit :=
  match min_max values with
  | Some e => raise e
  | None => mret ()
  end.

(** The identifier column of a loaded table. *)
Definition column_0 (df : DataFrame) : list cell := (λ row, nth 0 row NA) <$> data df.

(** *** [wide_to_long.py] *)
Definition convert_wide_to_long_csv (file_path : string) : M LongFrame :=
  df ← read_excel file_path;
  '(date_col, stock_cols) ← lift (column_roles (columns df));
  print (Found (length (data df)) (length stock_cols));;
  print_range (column_0 df);;
  long_df ← lift (melt df date_col stock_cols "Price");
  let long_df := rename_date long_df in
  let initial_rows := len long_df in
  let long_df := dropna long_df in
  let long_df := drop_eq "-" long_df in
  let long_df := drop_eq EmptyString long_df in
  let long_df := reset_index long_df in
  let final_rows := len long_df in
  let removed_rows := initial_rows - final_rows in
  print (Removed removed_rows);;
  print (Complete final_rows);;
  let csv_filename := "taiwan_stocks_long_format.csv" in
  print (Saving csv_filename);;
  to_csv csv_filename long_df;;
  print_range (Date <$> records long_df);;
  mret long_df.

(** *** [multi_file_converter.py] *)
Definition convert_stock_file_to_long (file_path output_suffix value_column_name : string)
    : M (LongFrame * string) :=
  df ← read_excel file_path;
  '(date_col, stock_cols) ← lift (column_roles (columns df));
  print (Found (length (data df)) (length stock_cols));;
  print_range (column_0 df);;
  long_df ← lift (melt df date_col stock_cols value_column_name);
  let long_df := rename_date long_df in
  let initial_rows := len long_df in
  let long_df := dropna long_df in
  let long_df := drop_eq "-" long_df in
  let long_df := drop_eq EmptyString long_df in
  let long_df := clean_numeric (melt_dtype df) long_df in
  let long_df := reset_index long_df in
  let final_rows := len long_df in
  let removed_rows := initial_rows - final_rows in
  print (Removed removed_rows);;
  print (Complete final_rows);;
  let csv_filename := csv_name file_path output_suffix in
  print (Saving csv_filename);;
  to_csv csv_filename long_df;;
  print_range (Date <$> records long_df);;
  mret (long_df, csv_filename).

(** The body of the loop over [files_config], with the result it appends. *)
Definition convert_one (config : file_config) : M conversion_result :=
  try_except
    (found ← exists_ (file config);
     if found : bool then
       '(df, filename) ← convert_stock_file_to_long
         (file config) (suffix config) (config_value_name config);
       mret {| original_file := file config;
               output_file := Some filename;
               result_description := description config;
               rows := len df;
               success := true;
               error := None |}
     else
       print (NotFound (file config));;
       mret {| original_file := file config;
               output_file := None;
               result_description := description config;
               rows := 0;
               success := false;
               error := None |})
    (λ e,
       print (ErrorProcessing (file config) (str_of_exception e));;
       mret {| original_file := file config;
               output_file := None;
               result_description := description config;
               rows := 0;
               success := false;
               error := Some (str_of_exception e) |}).

Fixpoint convert_each (configs : list file_config) (results : list conversion_result)
    : M (list conversion_result) :=
  match configs with
  | [] => mret results
  | config :: rest =>
      r ← convert_one config;
      convert_each rest (results ++ [r])
  end.

(** The loop of the summary report, returning [successful] and
    [total_rows]. *)
Fixpoint report_each (results : list conversion_result) (successful total_rows : nat)
    : M (nat * nat) :=
  match results with
  | [] => mret (successful, total_rows)
  | result :: rest =>
      print (Status (success result) (result_description result)
               (if success result then rows result else 0));;
      if success result then
        print (Output (default EmptyString (output_file result)));;
        report_each rest (successful + 1) (total_rows + rows result)
      else
        match error result with
        | Some message => print (ErrorLine message);; report_each rest successful total_rows
        | None => report_each rest successful total_rows
        end
  end.

Definition convert_all_stock_files (files_config : list file_config)
    : M (list conversion_result) :=
  results ← convert_each files_config [];
  '(successful, total_rows) ← report_each results 0 0;
  print (Summary successful (length files_config));;
  print (TotalPoints total_rows);;
  mret results.

(** *** [quarterly_files.py] *)
Definition fix_announcement_dates : M unit :=
  df_announce ← read_excel "announcemnet date.xlsx";
  data_rows ← lift (promote_header df_announce);
  let actual_columns := columns data_rows in
  print (FoundPeriods (length (data data_rows)) (Z.of_nat (length actual_columns) - 1));;
  '(date_col, stock_cols) ← lift (column_roles actual_columns);
  long_df ← lift (melt data_rows date_col stock_cols "AnnouncementDate");
  let long_df := rename_date long_df in
  let long_df := dropna long_df in
  let long_df := drop_eq "-" long_df in
  let long_df := drop_eq EmptyString long_df in
  to_csv "announcement_dates_fixed.csv" long_df;;
  print (Fixed (len long_df)).

Definition fix_book_values : M unit :=
  df_book ← read_excel "book value.xlsx";
  data_rows ← lift (promote_header df_book);
  let actual_columns := columns data_rows in
  print (FoundPeriods (length (data data_rows)) (Z.of_nat (length actual_columns) - 1));;
  '(date_col, stock_cols) ← lift (column_roles actual_columns);
  long_df ← lift (melt data_rows date_col stock_cols "BookValue");
  let long_df := rename_date long_df in
  let long_df := dropna long_df in
  let long_df := drop_eq "-" long_df in
  let long_df := drop_eq EmptyString long_df in
  let long_df := clean_book_value long_df in
  to_csv "book_values_fixed.csv" long_df;;
  print (Fixed (len long_df)).

Definition fix_quarterly_data_files : M unit :=
  try_except fix_announcement_dates
    (λ e, print (ErrorFixing "announcement dates" (str_of_exception e)));;
  try_except fix_book_values
    (λ e, print (ErrorFixing "book values" (str_of_exception e))).

End scripts.

(** ** Reference notions used to state the properties *)

Section reference.
Context `{V : Values}.

(** The values the filter is meant to remove: absent, the text [-] and
    the empty text. *)
Definition is_sentinel (c : cell) : bool :=
  match c with
  | NA => true
  | Str s => String.eqb s "-" || String.eqb s EmptyString
  | Val _ => false
  end.

(** The number a value denotes once converted to text and freed of its
    commas, if it denotes one. *)
Definition parsed (c : cell) : option scalar := to_numeric (clean_text c).

Definition parseable (r : nat * LongRecord) : bool :=
  bool_decide (is_Some (parsed (Value r.2))).

(** A row after a committed coercion: kept with its number, or dropped. *)
Definition coerced_row (r : nat * LongRecord) : option (nat * LongRecord) :=
  v ← parsed (Value r.2); Some (r.1, set_value r.2 (Val v)).

(** A row after an abandoned coercion: its comma-stripped text. *)
Definition text_row (r : nat * LongRecord) : nat * LongRecord :=
  (r.1, set_value r.2 (Str (clean_text (Value r.2)))).

(** The table that reaches the cleaning steps when the melt returns. *)
Definition unpivot (df : DataFrame) (date_col : cell) (stock_cols : list cell)
    (value_column_name : string) : LongFrame :=
  rename_date (melt_frame df date_col stock_cols value_column_name).

(** The labels with which the melt returns a table of three distinct
    columns that the renaming turns into [Date], [Stock] and the value
    column: the identifier label is not null, is not [Stock] and is the
    label of no value column, and the name of the value column is no
    column label and is neither [Stock] nor [Date]. *)
Definition melt_labels_ok (date_col : cell) (stock_cols : list cell)
    (value_column_name : string) : bool :=
  negb (isna date_col)
  && negb (label_eqb date_col (Str "Stock"))
  && negb (has_label date_col stock_cols)
  && negb (has_label (Str value_column_name) (date_col :: stock_cols))
  && negb (String.eqb value_column_name "Stock")
  && negb (String.eqb value_column_name "Date").

(** Rows removed by the sentinel filter alone. *)
Definition sentinel_removed (long_df : LongFrame) : nat :=
  len long_df - len (sentinel_filter long_df).

(** Rows removed by the guarded coercion alone. *)
Definition coercion_removed (dt : dtype) (long_df : LongFrame) : nat :=
  len long_df - len (clean_numeric dt long_df).

(** The table the general pipeline returns for a loaded sheet. *)
Definition general_long (df : DataFrame) (date_col : cell) (stock_cols : list cell)
    (value_column_name : string) : LongFrame :=
  reset_index (clean_numeric (melt_dtype df)
    (sentinel_filter (unpivot df date_col stock_cols value_column_name))).

End reference.

(** The three kinds of result the batch driver records, and the one a
    configured file must yield in a given world. *)
Definition missing_result (config : file_config) : conversion_result :=
  {| original_file := file config; output_file := None;
     result_description := description config;
     rows := 0; success := false; error := None |}.

Definition failure_result (config : file_config) (e : exception) : conversion_result :=
  {| original_file := file config; output_file := None;
     result_description := description config;
     rows := 0; success := false; error := Some (str_of_exception e) |}.

Definition success_result (config : file_config) (row_count : nat) (filename : string)
    : conversion_result :=
  {| original_file := file config; output_file := Some filename;
     result_description := description config;
     rows := row_count; success := true; error := None |}.

(** No output file of the batch is one of its input files. *)
Definition no_clobber (configs : list file_config) : bool :=
  forallb (λ config,
    forallb (λ config', negb (String.eqb (csv_name (file config) (suffix config)) (file config')))
      configs) configs.

Section batch_reference.
Context `{F : Files}.

(** What the general pipeline returns for a file with content [c]. *)
Definition convert_content (file_path output_suffix value_column_name : string) (c : content)
    : exception + (LongFrame * string) :=
  match read_sheet c with
  | inl e => inl e
  | inr df =>
      match column_roles (columns df) with
      | inl e => inl e
      | inr (date_col, stock_cols) =>
          match min_max (column_0 df) with
          | Some e => inl e
          | None =>
              match melt df date_col stock_cols value_column_name with
              | inl e => inl e
              | inr _ =>
                  let long_df := general_long df date_col stock_cols value_column_name in
                  match open_error (csv_name file_path output_suffix) with
                  | Some e => inl e
                  | None =>
                      match min_max (Date <$> records long_df) with
                      | Some e => inl e
                      | None => inr (long_df, csv_name file_path output_suffix)
                      end
                  end
              end
          end
      end
  end.

Definition expected_result (config : file_config) (w : world) : conversion_result :=
  match disk w !! file config with
  | None => missing_result config
  | Some _ =>
      match (convert_stock_file_to_long
               (file config) (suffix config) (config_value_name config) w).1 with
      | inl e => failure_result config e
      | inr (df, filename) => success_result config (len df) filename
      end
  end.

(** The configured file is absent from the disk. *)
Definition is_missing (w : world) (config : file_config) : bool :=
  match disk w !! file config with None => true | Some _ => false end.

(** The world in which the [i]-th configured file is processed. *)
Definition world_before (configs : list file_config) (w : world) (i : nat) : world :=
  (convert_each (take i configs) [] w).2.

End batch_reference.

(** The two figures of the batch summary. *)
Definition successful_count (results : list conversion_result) : nat :=
  length (List.filter success results).

Definition total_rows_of (results : list conversion_result) : nat :=
  sum_list (rows <$> List.filter success results).

(** ** A concrete instance: integer scalars and sheets kept as tables *)

Module Sample.

Definition digit_of (c : ascii) : option Z :=
  let n := nat_of_ascii c in
  if (48 <=? n)%nat && (n <=? 57)%nat then Some (Z.of_nat (n - 48)) else None.

Fixpoint parse_digits (acc : Z) (s : string) : option Z :=
  match s with
  | EmptyString => Some acc
  | String c rest => d ← digit_of c; parse_digits (10 * acc + d)%Z rest
  end.

(** Integer literals: an optional sign and at least one decimal digit. *)
Definition parse_int (s : string) : option Z :=
  match s with
  | EmptyString => None
  | String c rest =>
      if Ascii.eqb c "-" then
        (if String.eqb rest EmptyString then None else Z.opp <$> parse_digits 0 rest)
      else if Ascii.eqb c "+" then
        (if String.eqb rest EmptyString then None else parse_digits 0 rest)
      else parse_digits 0 s
  end.

Fixpoint digits_of (fuel : nat) (n : Z) (acc : string) : string :=
  match fuel with
  | O => acc
  | S fuel =>
      let acc := String (ascii_of_nat (48 + Z.to_nat (n mod 10))) acc in
      if (n <? 10)%Z then acc else digits_of fuel (n / 10)%Z acc
  end.

Definition str_of_int (z : Z) : string :=
  if (z <? 0)%Z then String "-" (digits_of (S (Z.to_nat (Z.log2 (- z)))) (- z) EmptyString)
  else digits_of (S (Z.to_nat (Z.log2 z))) z EmptyString.

Definition IntValues : Values :=
  {| scalar := Z; to_numeric := parse_int; astype_str := str_of_int;
     scalar_eqb := Z.eqb;
     duplicate_id_error :=
       Exception "AttributeError" "'DataFrame' object has no attribute 'dtype'" |}.

#[local] Existing Instance IntValues.

(** A file holds either a sheet or a written long table. *)
Definition SheetFiles : Files :=
  {| content := DataFrame + LongFrame;
     read_sheet := λ c,
       match c with
       | inl df => inr df
       | inr _ => inl (Exception "ValueError" "Excel file format cannot be determined")
       end;
     csv_of := inr;
     min_max := λ _, None;
     open_error := λ _, None;
     repr_other := λ path, "'" +:+ path +:+ "'" |}.

#[local] Existing Instance SheetFiles.

(** Two periods, two stocks, values [[100, "-"], [200, 300]]. *)
Definition two_by_two : DataFrame :=
  {| columns := [Str "Period"; Str "S1"; Str "S2"];
     dtypes := [object; int64; object];
     index := [0; 1];
     data := [ [Str "P1"; Val 100%Z; Str "-"];
               [Str "P2"; Val 200%Z; Val 300%Z] ] |}.

(** A quarterly sheet whose first data row is the real header. *)
Definition quarterly : DataFrame :=
  {| columns := [Str "Unnamed: 0"; Str "Unnamed: 1"; Str "Unnamed: 2"];
     dtypes := [object; object; object];
     index := [0; 1; 2];
     data := [ [Str "Period"; Str "1101 X"; Str "1102 Y"];
               [Str "2020Q1"; Str "63,292,145"; Str "-"];
               [Str "2020Q2"; Str "nm"; Str "1,250"] ] |}.

(** A quarterly sheet of announcement dates, one of them not yet known. *)
Definition announcements : DataFrame :=
  {| columns := [Str "Unnamed: 0"; Str "Unnamed: 1"; Str "Unnamed: 2"];
     dtypes := [object; object; object];
     index := [0; 1; 2];
     data := [ [Str "Period"; Str "1101 X"; Str "1102 Y"];
               [Str "2020Q1"; Str "2020/05/15"; Str "-"];
               [Str "2020Q2"; Str "pending"; Str "2020/08/14"] ] |}.

(** One text column: five numbers and one word. *)
Definition five_of_six : DataFrame :=
  {| columns := [Str "Date"; Str "2330"];
     dtypes := [int64; object];
     index := [0; 1; 2; 3; 4; 5];
     data := [ [Val 1%Z; Str "1,000"]; [Val 2%Z; Str "2,000"]; [Val 3%Z; Str "3,000"];
               [Val 4%Z; Str "4,000"]; [Val 5%Z; Str "5,000"]; [Val 6%Z; Str "abc"] ] |}.

(** A long column of [n] rows of which the first [k] hold a number. *)
Definition mixed_column (k n : nat) : LongFrame :=
  {| id_name := Str "Date";
     value_name := "Price";
     lrows := imap (λ i _, (i, {| Date := Val (Z.of_nat i); Stock := Str "2330";
                                 Value := Str (if (i <? k)%nat then "1,5" else "x") |}))
                (replicate n ()) |}.

Definition single_value : LongFrame :=
  {| id_name := Str "Date";
     value_name := "Volume";
     lrows := [ (0, {| Date := Str "2020-01-02"; Stock := Str "2330";
                      Value := Str "63,292,145" |}) ] |}.

Definition world_with (files : list (string * DataFrame)) : world :=
  {| disk := list_to_map (prod_map id inl <$> files); console := [] |}.

(** The disk of the batch scenario: three of the five configured files. *)
Definition three_of_five : world :=
  world_with [ ("stock price.xlsx", two_by_two);
               ("tv.xlsx", five_of_six);
               ("book value.xlsx", quarterly) ].

End Sample.

(** ** Output names and the verification helper *)

Fixpoint has_non_dot (s : string) : bool :=
  match s with
  | EmptyString => false
  | String c rest => negb (Ascii.eqb c ".") || has_non_dot rest
  end.

(** The output names of a batch are pairwise distinct. *)
Definition distinct_outputs (configs : list file_config) : bool :=
  bool_decide (NoDup ((λ config, csv_name (file config) (suffix config)) <$> configs)).

Definition KeyError (key : string) : exception :=
  Exception "KeyError" ("'" +:+ key +:+ "'").

(** [pd.read_csv] on the bytes of an existing file and [Series.nunique],
    both outside the repository. *)
Class Reader `{F : Files} := {
  read_csv_content : content → exception + DataFrame;
  nunique : list cell → nat
}.

Section verification.
Context `{R : Reader}.

(** The lines [verify_daily_files] prints. *)
Inductive check_line :=
  | Verifying
  | CheckRows (filename : string) (rows : nat)
  | CheckColumns (labels : list cell)
  | UniqueDates (n : nat)
  | UniqueStocks (n : nat)
  | CheckSample (head : list (list cell))
  | CheckNotFound (filename : string)
  | CheckError (filename message : string).

Definition is_label (key : string) (c : cell) : bool :=
  match c with Str t => String.eqb t key | _ => false end.

Fixpoint get_loc (key : string) (labels : list cell) : option nat :=
  match labels with
  | [] => None
  | c :: rest => if is_label key c then Some 0 else S <$> get_loc key rest
  end.

(** [df[key]] *)
Definition getitem (df : DataFrame) (key : string) : exception + list cell :=
  match get_loc key (columns df) with
  | None => inl (KeyError key)
  | Some j => inr ((λ row, nth j row NA) <$> data df)
  end.

(** The two [except] clauses of the loop body. *)
Definition check_except (filename : string) (e : exception) : check_line :=
  match e with
  | Exception name message =>
      if String.eqb name "FileNotFoundError" then CheckNotFound filename
      else CheckError filename message
  end.

(** What the loop body prints once [pd.read_csv] has the bytes [c]. *)
Definition check_content (filename : string) (c : content) : list check_line :=
  match read_csv_content c with
  | inl e => [check_except filename e]
  | inr df =>
      CheckRows filename (length (data df)) ::
      CheckColumns (columns df) ::
      match getitem df "Date" with
      | inl e => [check_except filename e]
      | inr dates =>
          UniqueDates (nunique dates) ::
          match getitem df "Stock" with
          | inl e => [check_except filename e]
          | inr stocks => [UniqueStocks (nunique stocks); CheckSample (take 2 (data df))]
          end
      end
  end.

(** The body of the loop of [verify_daily_files], which only reads: the
    lines it prints are what it returns. *)
Definition check_file (w : world) (filename : string) : list check_line :=
  match disk w !! filename with
  | None => [check_except filename (FileNotFoundError filename)]
  | Some c => check_content filename c
  end.

Definition files_to_check : list string :=
  ["tv_volume_long_format.csv"; "mkt cap_market_cap_long_format.csv"].

Definition verify_daily_files (w : world) : list check_line :=
  Verifying :: (filename ← files_to_check; check_file w filename).

(** The table a CSV written without index holds: the three columns of a
    long table and its records. *)
Definition csv_table (long_df : LongFrame) : DataFrame :=
  {| columns := [id_name long_df; Str "Stock"; Str (value_name long_df)];
     dtypes := [object; object; object];
     index := seq 0 (len long_df);
     data := (λ r, [Date r; Stock r; Value r]) <$> records long_df |}.

(** The five lines printed for a file read as a table whose columns are
    [Date], [Stock] and a value column. *)
Definition table_report (filename value_column_name : string) (df : DataFrame)
    : list check_line :=
  [ CheckRows filename (length (data df));
    CheckColumns [Str "Date"; Str "Stock"; Str value_column_name];
    UniqueDates (nunique ((λ row, nth 0 row NA) <$> data df));
    UniqueStocks (nunique ((λ row, nth 1 row NA) <$> data df));
    CheckSample (take 2 (data df)) ].

End verification.

(** ** Further sample inputs *)

Module Cases.
Import Sample.
#[local] Existing Instance IntValues.
#[local] Existing Instance SheetFiles.

(** Reading back a written table gives its three columns; distinct values
    are counted on their text. *)
Definition SheetReader : Reader :=
  {| read_csv_content := λ c,
       match c with
       | inr long_df => inr (csv_table long_df)
       | inl _ => inl (Exception "ParserError" "Error tokenizing data")
       end;
     nunique := λ values, length (remove_dups (astype_str_cell <$> values)) |}.

(** A sheet without any column, and one holding the secondary header only. *)
Definition no_columns : DataFrame :=
  {| columns := []; dtypes := []; index := []; data := [] |}.

Definition header_only : DataFrame :=
  {| columns := [Str "Unnamed: 0"; Str "Unnamed: 1"];
     dtypes := [object; object];
     index := [0];
     data := [ [Str "Period"; Str "1101 X"] ] |}.

(** Two numeric value columns, one blank. *)
Definition numeric_sheet : DataFrame :=
  {| columns := [Str "Date"; Str "2330"; Str "2317"];
     dtypes := [object; float64; int64];
     index := [0; 1];
     data := [ [Str "2020-01-02"; Val 330%Z; Val 90%Z];
               [Str "2020-01-03"; NA; Val 91%Z] ] |}.


(** A text column in which everything parses, and one holding a value made
    of commas only. *)
Definition clean_column : LongFrame := mixed_column 3 3.

Definition comma_only : LongFrame :=
  {| id_name := Str "Date";
     value_name := "Price";
     lrows := [ (0, {| Date := Str "d1"; Stock := Str "2330"; Value := Str "," |});
                (1, {| Date := Str "d2"; Stock := Str "2330"; Value := Str "nm" |}) ] |}.

Definition batch_inputs : world :=
  world_with [ ("tv.xlsx", five_of_six); ("mkt cap.xlsx", two_by_two) ].

End Cases.

(** * Properties *)

(** ** The threshold comparison is exact *)

Module Binary64Facts.
Import Binary64.
Local Open Scope Z_scope.

Lemma round53_small p : 0 <= p < 2 ^ 53 -> round53 p = p.
Proof.
  intros [H0 H1]. unfold round53.
  assert (Hs : Z.max 0 (Z.log2 p - 52) = 0).
  { destruct (Z.eq_dec p 0) as [->|Hne]; [reflexivity|].
    assert (Z.log2 p < 53) by (apply Z.log2_lt_pow2; lia). lia. }
  rewrite Hs. change (2 ^ 0) with 1.
  rewrite Z.mod_1_r, Z.div_1_r. simpl. lia.
Qed.

Lemma round53_error p : 0 <= p -> Z.abs (round53 p - p) * 2 ^ 53 <= p.
Proof.
  intros H0.
  destruct (Z_lt_dec p (2 ^ 53)) as [Hlt|Hge].
  { rewrite round53_small by lia. replace (p - p) with 0 by lia. simpl. lia. }
  unfold round53.
  assert (Hlog : 53 <= Z.log2 p) by (apply Z.log2_le_pow2; lia).
  rewrite Z.max_r by lia.
  set (s := Z.log2 p - 52).
  assert (Hs : 1 <= s) by (unfold s; lia).
  assert (Hp : 2 ^ (s + 52) <= p).
  { unfold s. replace (Z.log2 p - 52 + 52) with (Z.log2 p) by lia.
    apply Z.log2_spec. lia. }
  assert (Hpow : 2 ^ s = 2 * 2 ^ (s - 1)).
  { rewrite <- Z.pow_succ_r by lia. f_equal. lia. }
  assert (Hpow2 : 2 ^ (s + 52) = 2 ^ (s - 1) * 2 ^ 53).
  { rewrite <- Z.pow_add_r by lia. f_equal. lia. }
  assert (Hh : 0 < 2 ^ (s - 1)) by (apply Z.pow_pos_nonneg; lia).
  pose proof (Z.div_mod p (2 ^ s) ltac:(lia)) as Hdm.
  pose proof (Z.mod_pos_bound p (2 ^ s) ltac:(lia)) as Hr.
  set (q := p / 2 ^ s) in *. set (r := p mod 2 ^ s) in *.
  set (h := 2 ^ (s - 1)) in *.
  destruct ((2 ^ s <? 2 * r) || ((2 ^ s =? 2 * r) && Z.odd q)) eqn:E.
  - assert (h <= r).
    { apply orb_true_iff in E as [E|E].
      - apply Z.ltb_lt in E. lia.
      - apply andb_true_iff in E as [E _]. apply Z.eqb_eq in E. lia. }
    nia.
  - apply orb_false_iff in E as [E _]. apply Z.ltb_ge in E. nia.
Qed.

Lemma round53_above p m :
  0 <= m -> m * 2 ^ 53 <= p < 2 ^ 106 -> m * 2 ^ 53 <= round53 p.
Proof.
  intros Hm [Hmp Hp].
  destruct (Z_lt_dec p (2 ^ 53)) as [Hlt|Hge].
  { rewrite round53_small by lia. lia. }
  unfold round53.
  assert (Hlog : 53 <= Z.log2 p) by (apply Z.log2_le_pow2; lia).
  assert (Hlog' : Z.log2 p < 106) by (apply Z.log2_lt_pow2; lia).
  rewrite Z.max_r by lia.
  set (s := Z.log2 p - 52).
  assert (Hs : 1 <= s <= 53) by (unfold s; lia).
  assert (Hsplit : 2 ^ 53 = 2 ^ (53 - s) * 2 ^ s).
  { rewrite <- Z.pow_add_r by lia. f_equal. lia. }
  assert (Hps : 0 < 2 ^ s) by (apply Z.pow_pos_nonneg; lia).
  assert (Hq : m * 2 ^ (53 - s) <= p / 2 ^ s).
  { apply Z.div_le_lower_bound; [lia|]. rewrite Hsplit in Hmp. lia. }
  set (q := p / 2 ^ s) in *.
  rewrite Hsplit.
  match goal with |- context [if ?b then _ else _] => destruct b end; nia.
Qed.

Lemma m08_times_5 : 5 * m08 = 2 ^ 55 + 2.
Proof. reflexivity. Qed.

Lemma exceeds_threshold_exact (k n : nat) :
  (k <= n)%nat -> Z.of_nat n < 2 ^ 50 ->
  exceeds_threshold k n = true <-> (4 * n < 5 * k)%nat.
Proof.
  intros Hkn Hn. unfold exceeds_threshold, int_gt_float, mul_08, float_of_int.
  rewrite (round53_small (Z.of_nat k)) by lia.
  rewrite (round53_small (Z.of_nat n)) by lia.
  set (K := Z.of_nat k) in *. set (N := Z.of_nat n) in *.
  assert (HK : 0 <= K <= N) by lia.
  pose proof m08_times_5 as H5.
  rewrite Z.ltb_lt. split.
  - intros Hlt.
    destruct (Z_lt_dec (4 * N) (5 * K)) as [?|Hge]; [lia|].
    exfalso.
    assert (K * 2 ^ 53 <= round53 (N * m08)); [|lia].
    apply round53_above; [lia|]. split; nia.
  - intros Hlt. assert (4 * N + 1 <= 5 * K) by lia.
    pose proof (round53_error (N * m08) ltac:(nia)) as He.
    assert (round53 (N * m08) - N * m08 <= Z.abs (round53 (N * m08) - N * m08)) by lia.
    set (v := round53 (N * m08)) in *.
    nia.
Qed.
End Binary64Facts.

(** ** Lists, filters and the shape of a melted table *)

Section shape.
Context `{V : Values}.

Lemma filter_idem {A} (f : A → bool) (l : list A) :
  List.filter f (List.filter f l) = List.filter f l.
Proof.
  induction l as [|x l IH]; simpl; [done|].
  destruct (f x) eqn:E; simpl; [rewrite E|]; by rewrite ?IH.
Qed.

Lemma filter_fuse {A} (f g : A → bool) (l : list A) :
  List.filter g (List.filter f l) = List.filter (λ x, f x && g x) l.
Proof.
  induction l as [|x l IH]; simpl; [done|].
  destruct (f x); simpl; [destruct (g x)|]; by rewrite ?IH.
Qed.

Lemma filter_ext_all {A} (f g : A → bool) (l : list A) :
  (∀ x, f x = g x) → List.filter f l = List.filter g l.
Proof. intros E. induction l as [|x l IH]; simpl; [done|]. by rewrite E, IH. Qed.

Lemma keep_not_sentinel (c : cell) :
  negb (isna c) && (ne_str "-" c && ne_str EmptyString c) = negb (is_sentinel c).
Proof. destruct c as [|s|v]; simpl; [done| |done]. by rewrite negb_orb. Qed.

Lemma sentinel_filter_unfold (long_df : LongFrame) :
  sentinel_filter long_df
  = with_rows long_df (List.filter (λ r, negb (is_sentinel (Value r.2))) (lrows long_df)).
Proof.
  unfold sentinel_filter, drop_eq, dropna, with_rows; simpl. f_equal.
  rewrite !filter_fuse. apply filter_ext_all. intros r. apply keep_not_sentinel.
Qed.

Lemma snd_zip_seq {A} (l : list A) : (zip (seq 0 (length l)) l).*2 = l.
Proof. apply snd_zip. by rewrite length_seq. Qed.

Lemma records_melt df date_col stock_cols name :
  records (melt_frame df date_col stock_cols name) = concat (imap (melt_column df) stock_cols).
Proof. unfold records, melt_frame; simpl. apply snd_zip_seq. Qed.

Lemma len_records (long_df : LongFrame) : len long_df = length (records long_df).
Proof. unfold len, records. by rewrite length_fmap. Qed.

Lemma length_concat_imap {A B} (f : nat → A → list B) (l : list A) (R : nat) :
  (∀ j x, length (f j x) = R) → length (concat (imap f l)) = length l * R.
Proof.
  revert f. induction l as [|x l IH]; intros f Hf; simpl; [done|].
  rewrite length_app, Hf, IH; [lia|]. intros j y. apply Hf.
Qed.

Lemma lookup_concat_imap {A B} (f : nat → A → list B) (l : list A) (R j i : nat) x :
  (∀ j x, length (f j x) = R) → l !! j = Some x → i < R →
  concat (imap f l) !! (j * R + i) = f j x !! i.
Proof.
  revert f j. induction l as [|y l IH]; intros f j Hf Hj Hi; [done|].
  simpl. destruct j as [|j]; simpl in *.
  - injection Hj as ->. rewrite lookup_app_l; [done|]. by rewrite Hf.
  - rewrite lookup_app_r; rewrite Hf; [|lia].
    replace (R + j * R + i - R) with (j * R + i) by lia.
    rewrite (IH (f ∘ S) j); [done| |done|done]. intros k z. apply Hf.
Qed.

Lemma length_melt_column df j label : length (melt_column df j label) = length (data df).
Proof. unfold melt_column. by rewrite length_fmap. Qed.

End shape.

(** ** The sentinel filter *)

Section sentinel.
Context `{V : Values}.

Lemma not_sentinel_spec (c : cell) :
  is_sentinel c = false ↔ c ≠ NA ∧ c ≠ Str "-" ∧ c ≠ Str EmptyString.
Proof.
  destruct c as [|s|v]; simpl.
  - split; [done|]. intros [? _]. done.
  - rewrite orb_false_iff, !String.eqb_neq. split.
    + intros [? ?]. repeat split; congruence.
    + intros (_ & ? & ?). split; congruence.
  - split; [|done]. intros _. repeat split; discriminate.
Qed.

Lemma elem_of_sentinel_filter (long_df : LongFrame) (r : nat * LongRecord) :
  r ∈ lrows (sentinel_filter long_df)
  ↔ r ∈ lrows long_df ∧ Value r.2 ≠ NA ∧ Value r.2 ≠ Str "-" ∧ Value r.2 ≠ Str EmptyString.
Proof.
  rewrite sentinel_filter_unfold; simpl.
  rewrite !list_elem_of_In, filter_In, negb_true_iff, not_sentinel_spec. done.
Qed.

End sentinel.

(** C7.  The sentinel filter keeps, in their order, exactly the rows whose
    value is neither null nor the text [-] nor the empty text; the two
    periods by two stocks table with values [[100, "-"], [200, 300]] melts
    into four records, of which the filter keeps (P1,S1,100), (P2,S1,200)
    and (P2,S2,300). *)
Theorem sentinel_filter_removes_exactly_sentinels :
  (∀ (V : Values) (long_df : LongFrame),
      sentinel_filter long_df
      = with_rows long_df (List.filter (λ r, negb (is_sentinel (Value r.2))) (lrows long_df))
      ∧ ∀ r, r ∈ lrows (sentinel_filter long_df)
             ↔ r ∈ lrows long_df
               ∧ Value r.2 ≠ NA ∧ Value r.2 ≠ Str "-" ∧ Value r.2 ≠ Str EmptyString)
  ∧ (let long_df := unpivot Sample.two_by_two (Str "Period") [Str "S1"; Str "S2"] "Price" in
     len long_df = 4
     ∧ records (sentinel_filter long_df)
       = [ {| Date := Str "P1"; Stock := Str "S1"; Value := Val (100%Z : @scalar Sample.IntValues) |};
           {| Date := Str "P2"; Stock := Str "S1"; Value := Val (200%Z : @scalar Sample.IntValues) |};
           {| Date := Str "P2"; Stock := Str "S2"; Value := Val (300%Z : @scalar Sample.IntValues) |} ]).
Proof.
  split.
  - intros V long_df. split.
    + apply sentinel_filter_unfold.
    + apply elem_of_sentinel_filter.
  - split; reflexivity.
Qed.

(** C9.  Filtering an already filtered table changes nothing. *)
Theorem sentinel_filter_idempotent (V : Values) (long_df : LongFrame) :
  sentinel_filter (sentinel_filter long_df) = sentinel_filter long_df.
Proof.
  rewrite !sentinel_filter_unfold. unfold with_rows; simpl. f_equal.
  apply filter_idem.
Qed.

(** ** The unpivot *)

Section unpivot_shape.
Context `{V : Values}.

Lemma rectangular_cell_at (df : DataFrame) (i j : nat) :
  rectangular df → i < length (data df) → j < length (columns df) →
  ∃ row c, data df !! i = Some row ∧ row !! j = Some c ∧ cell_at df i j = Some c
           ∧ nth j row NA = c.
Proof.
  intros Hrect Hi Hj.
  destruct (lookup_lt_is_Some_2 (data df) i Hi) as [row Hrow].
  pose proof (rect_rows df Hrect) as Hall.
  rewrite Forall_lookup in Hall. specialize (Hall i row Hrow). simpl in Hall.
  destruct (lookup_lt_is_Some_2 row j ltac:(lia)) as [c Hc].
  exists row, c. repeat split; [done|done| |].
  - unfold cell_at. rewrite Hrow. simpl. done.
  - rewrite nth_lookup, Hc. done.
Qed.

Lemma melt_inr (df : DataFrame) date_col stock_cols name melted :
  melt df date_col stock_cols name = inr melted →
  melted = melt_frame df date_col stock_cols name.
Proof.
  unfold melt. destruct (has_label (Str name) (columns df)); [done|].
  destruct (has_label date_col stock_cols); [done|]. by intros [= <-].
Qed.

Lemma melt_labels_ok_spec date_col stock_cols name :
  melt_labels_ok date_col stock_cols name = true →
  isna date_col = false
  ∧ label_eqb date_col (Str "Stock") = false
  ∧ has_label date_col stock_cols = false
  ∧ has_label (Str name) (date_col :: stock_cols) = false
  ∧ name ≠ "Stock" ∧ name ≠ "Date".
Proof.
  unfold melt_labels_ok. rewrite !andb_true_iff, !negb_true_iff, !String.eqb_neq.
  tauto.
Qed.

Lemma melt_ok (df : DataFrame) date_col stock_cols name :
  column_roles (columns df) = inr (date_col, stock_cols) →
  melt_labels_ok date_col stock_cols name = true →
  melt df date_col stock_cols name = inr (melt_frame df date_col stock_cols name).
Proof.
  intros Hroles (_ & _ & Hid & Hvalue & _)%melt_labels_ok_spec.
  unfold column_roles in Hroles. destruct (columns df) as [|c rest] eqn:Hcols; [done|].
  injection Hroles as -> ->. unfold melt. by rewrite Hcols, Hvalue, Hid.
Qed.

End unpivot_shape.

(** C3.  A table of [R] rows with an identifier column and [N] value
    columns, whose labels the melt accepts, melts into [R * N] records:
    the melt returns, and the record at place [j * R + i] pairs the
    identifier of row [i] with the label of value column [j] and the cell
    found there; the identifier column of the result is called [Date]. *)
Theorem unpivot_one_record_per_pair (V : Values) (df : DataFrame)
    (date_col : cell) (stock_cols : list cell) (value_column_name : string) :
  rectangular df →
  column_roles (columns df) = inr (date_col, stock_cols) →
  melt_labels_ok date_col stock_cols value_column_name = true →
  ∃ melted,
    melt df date_col stock_cols value_column_name = inr melted
    ∧ let long_df := rename_date melted in
      let R := length (data df) in
      let N := length stock_cols in
      len long_df = R * N
      ∧ id_name long_df = Str "Date"
      ∧ value_name long_df = value_column_name
      ∧ ∀ i j, i < R → j < N →
          ∃ period label v,
            cell_at df i 0 = Some period
            ∧ stock_cols !! j = Some label
            ∧ columns df !! S j = Some label
            ∧ cell_at df i (S j) = Some v
            ∧ records long_df !! (j * R + i)
              = Some {| Date := period; Stock := label; Value := v |}.
Proof.
  intros Hrect Hroles Hlabels.
  exists (melt_frame df date_col stock_cols value_column_name).
  split; [by apply melt_ok|].
  fold (unpivot df date_col stock_cols value_column_name).
  intros long_df R N.
  assert (Hcols : columns df = date_col :: stock_cols).
  { unfold column_roles in Hroles. destruct (columns df); [done|]. by injection Hroles as -> ->. }
  assert (Hrecs : records long_df = concat (imap (melt_column df) stock_cols)).
  { apply records_melt. }
  split; [|split; [done|split; [done|]]].
  - rewrite len_records, Hrecs.
    rewrite (length_concat_imap _ _ R); [lia|]. intros. apply length_melt_column.
  - intros i j Hi Hj.
    destruct (lookup_lt_is_Some_2 stock_cols j Hj) as [label Hlabel].
    destruct (rectangular_cell_at df i 0 Hrect Hi) as (row & period & Hrow & _ & Hperiod & Hn0).
    { rewrite Hcols. simpl. lia. }
    destruct (rectangular_cell_at df i (S j) Hrect Hi) as (row' & v & Hrow' & _ & Hv & Hnj).
    { rewrite Hcols. simpl. fold N. lia. }
    assert (row' = row) as -> by congruence.
    exists period, label, v. repeat split; [done|done| |done|].
    + rewrite Hcols. done.
    + rewrite Hrecs.
      rewrite (lookup_concat_imap _ _ R j i label); [|intros; apply length_melt_column|done|done].
      unfold melt_column. rewrite list_lookup_fmap, Hrow. simpl. by rewrite Hn0, Hnj.
Qed.

(** C2.  On a loaded table with at least one row, the header-offset
    correction takes row 0 as the column labels, keeps the rows after it
    under the labels 0, 1, ..., and the column roles are then read off the
    captured labels: the first is the identifier, the others the value
    columns.  With ["Period"; "1101 X"; "1102 Y"] in row 0 these are the
    columns of the result, which has one row fewer than the load. *)
Theorem header_offset_promotes_row_0 (V : Values) (df : DataFrame) :
  rectangular df →
  0 < length (data df) →
  0 < length (columns df) →
  ∃ actual_columns rest data_rows date_col stock_cols,
    data df = actual_columns :: rest
    ∧ promote_header df = inr data_rows
    ∧ columns data_rows = actual_columns
    ∧ data data_rows = rest
    ∧ index (iloc_from_1 df) = drop 1 (index df)
    ∧ index data_rows = seq 0 (length rest)
    ∧ S (length (data data_rows)) = length (data df)
    ∧ rectangular data_rows
    ∧ column_roles (columns data_rows) = inr (date_col, stock_cols)
    ∧ actual_columns !! 0 = Some date_col
    ∧ stock_cols = drop 1 actual_columns
    ∧ length stock_cols = length (columns df) - 1
    ∧ (actual_columns = [Str "Period"; Str "1101 X"; Str "1102 Y"] →
       columns data_rows = [Str "Period"; Str "1101 X"; Str "1102 Y"]
       ∧ date_col = Str "Period"
       ∧ stock_cols = [Str "1101 X"; Str "1102 Y"]
       ∧ length (data data_rows) = length (data df) - 1).
Proof.
  intros Hrect Hrows Hcols.
  destruct Hrect as [Hall Hidx Hdt].
  unfold promote_header.
  destruct (data df) as [|actual_columns rest] eqn:Hdata; [simpl in Hrows; lia|].
  apply Forall_cons in Hall as [Hlen Hall].
  destruct actual_columns as [|date_col stock_cols]; [simpl in Hlen; lia|].
  simpl in Hlen.
  eexists _, _, _, date_col, stock_cols.
  split; [done|]. split; [done|].
  unfold set_columns, reset_row_index, iloc_from_1; simpl.
  rewrite Hdata; simpl. rewrite !drop_0.
  repeat split; try done; simpl.
  - eapply Forall_impl; [exact Hall|]. simpl. intros row Hrow. lia.
  - by rewrite length_seq.
  - lia.
  - lia.
  - by simplify_eq.
  - by simplify_eq.
  - lia.
Qed.

(** ** Numeric coercion *)

Section coercion.
Context `{V : Values}.

Lemma parseable_parsed (r : nat * LongRecord) :
  parseable r = true ↔ ∃ v, parsed (Value r.2) = Some v.
Proof. unfold parseable. rewrite bool_decide_eq_true. done. Qed.

Lemma numeric_cell_text (c : cell) :
  numeric_cell (Str (clean_text c)) = from_option Val NA (parsed c).
Proof. unfold numeric_cell, parsed. by destruct (to_numeric (clean_text c)). Qed.

Lemma lrows_strip_commas (long_df : LongFrame) :
  lrows (strip_commas long_df) = text_row <$> lrows long_df.
Proof. done. Qed.

Lemma numeric_values_strip_commas (long_df : LongFrame) :
  numeric_values (strip_commas long_df)
  = (λ r, from_option Val NA (parsed (Value r.2))) <$> lrows long_df.
Proof.
  unfold numeric_values, records. rewrite lrows_strip_commas.
  rewrite <- !list_fmap_compose. apply list_fmap_ext. intros i r _. simpl.
  apply numeric_cell_text.
Qed.

Lemma length_numeric_values (long_df : LongFrame) :
  length (numeric_values (strip_commas long_df)) = len long_df.
Proof. rewrite numeric_values_strip_commas. by rewrite length_fmap. Qed.

Lemma parseable_Some (r : nat * LongRecord) v : parsed (Value r.2) = Some v → parseable r = true.
Proof. intros E. apply parseable_parsed. eauto. Qed.

Lemma parseable_None (r : nat * LongRecord) : parsed (Value r.2) = None → parseable r = false.
Proof.
  intros E. destruct (parseable r) eqn:P; [|done].
  apply parseable_parsed in P as [v Hv]. congruence.
Qed.

Lemma filter_cons {A} (f : A → bool) x (l : list A) :
  List.filter f (x :: l) = if f x then x :: List.filter f l else List.filter f l.
Proof. done. Qed.

Lemma notna_sum_parseable (long_df : LongFrame) :
  notna_sum (numeric_values (strip_commas long_df))
  = length (List.filter parseable (lrows long_df)).
Proof.
  rewrite numeric_values_strip_commas. unfold notna_sum.
  induction (lrows long_df) as [|r rows IH]; [done|].
  rewrite fmap_cons, !filter_cons.
  destruct (parsed (Value r.2)) as [v|] eqn:E.
  - rewrite (parseable_Some r v E). simpl. by rewrite IH.
  - rewrite (parseable_None r E). simpl. by rewrite IH.
Qed.

Lemma omap_cons_eq {A B} (f : A → option B) x (l : list A) :
  omap f (x :: l) = match f x with Some y => y :: omap f l | None => omap f l end.
Proof. done. Qed.

Lemma coerced_row_Some (r : nat * LongRecord) v :
  parsed (Value r.2) = Some v → coerced_row r = Some (r.1, set_value r.2 (Val v)).
Proof. intros E. unfold coerced_row. by rewrite E. Qed.

Lemma coerced_row_None (r : nat * LongRecord) :
  parsed (Value r.2) = None → coerced_row r = None.
Proof. intros E. unfold coerced_row. by rewrite E. Qed.

Lemma lrows_committed (long_df : LongFrame) :
  lrows (dropna (assign_numeric (strip_commas long_df))) = omap coerced_row (lrows long_df).
Proof.
  unfold dropna, assign_numeric, strip_commas, with_rows. cbn [lrows].
  induction (lrows long_df) as [|r rows IH]; [done|].
  rewrite !fmap_cons, filter_cons, omap_cons_eq. cbn [fst snd Value set_value].
  rewrite numeric_cell_text.
  destruct (parsed (Value r.2)) as [v|] eqn:E.
  - rewrite (coerced_row_Some r v E). simpl. by rewrite IH.
  - rewrite (coerced_row_None r E). simpl. by rewrite IH.
Qed.

Lemma length_omap_coerced (rows : list (nat * LongRecord)) :
  length (omap coerced_row rows) = length (List.filter parseable rows).
Proof.
  induction rows as [|r rows IH]; [done|].
  rewrite filter_cons, omap_cons_eq.
  destruct (parsed (Value r.2)) as [v|] eqn:E.
  - rewrite (parseable_Some r v E), (coerced_row_Some r v E). simpl. by rewrite IH.
  - rewrite (parseable_None r E), (coerced_row_None r E). by rewrite IH.
Qed.

Lemma length_filter_le {A} (f : A → bool) (l : list A) : length (List.filter f l) ≤ length l.
Proof. induction l as [|x l IH]; simpl; [done|]. destruct (f x); simpl; lia. Qed.

Lemma committed_eq (long_df : LongFrame) :
  dropna (assign_numeric (strip_commas long_df))
  = with_rows long_df (omap coerced_row (lrows long_df)).
Proof.
  pose proof (lrows_committed long_df) as H.
  unfold dropna, with_rows in *; simpl in *. by rewrite H.
Qed.

Lemma clean_book_value_eq (long_df : LongFrame) :
  clean_book_value long_df = with_rows long_df (omap coerced_row (lrows long_df)).
Proof. apply committed_eq. Qed.

Lemma clean_numeric_object (long_df : LongFrame) :
  clean_numeric object long_df
  = if exceeds_threshold (length (List.filter parseable (lrows long_df))) (len long_df)
    then with_rows long_df (omap coerced_row (lrows long_df))
    else with_rows long_df (text_row <$> lrows long_df).
Proof.
  unfold clean_numeric; simpl.
  rewrite notna_sum_parseable, length_numeric_values.
  destruct (exceeds_threshold _ _); [apply committed_eq|done].
Qed.

Lemma len_clean_numeric_le (dt : dtype) (long_df : LongFrame) :
  len (clean_numeric dt long_df) ≤ len long_df.
Proof.
  destruct (dtype_eqb dt object) eqn:E.
  - assert (dt = object) as -> by (by destruct dt).
    rewrite clean_numeric_object. destruct (exceeds_threshold _ _); unfold len; simpl.
    + rewrite length_omap_coerced. apply length_filter_le.
    + by rewrite length_fmap.
  - unfold clean_numeric. by rewrite E.
Qed.

Lemma len_sentinel_filter_le (long_df : LongFrame) :
  len (sentinel_filter long_df) ≤ len long_df.
Proof. rewrite sentinel_filter_unfold. unfold len; simpl. apply length_filter_le. Qed.

Lemma len_reset_index (long_df : LongFrame) : len (reset_index long_df) = len long_df.
Proof.
  unfold reset_index, len at 1; simpl.
  rewrite length_zip, length_seq. unfold records, len. rewrite length_fmap. lia.
Qed.

End coercion.

(** C1.  A text column reaching the coercion of the general pipeline is
    replaced by its parsed numbers, the unparseable rows being dropped,
    exactly when more than 0.8 of its values parse once their commas are
    stripped; otherwise every row is kept with its comma-stripped text.  At
    80 of 100 the coercion is abandoned, at 81 of 100 it commits.  (The
    comparison is one of doubles; it agrees with the exact one for every
    column of fewer than [2^50] rows.) *)
Theorem coercion_commits_above_threshold (V : Values) (long_df : LongFrame) :
  (Z.of_nat (len long_df) < 2 ^ 50)%Z →
  let n := len long_df in
  let k := length (List.filter parseable (lrows long_df)) in
  let numeric_values := numeric_values (strip_commas long_df) in
  let result := clean_numeric object long_df in
  notna_sum numeric_values = k
  ∧ length numeric_values = n
  ∧ (exceeds_threshold (notna_sum numeric_values) (length numeric_values) = true
     ↔ 4 * n < 5 * k)
  ∧ (4 * n < 5 * k →
     result = with_rows long_df (omap coerced_row (lrows long_df))
     ∧ len result = k)
  ∧ (5 * k ≤ 4 * n →
     result = with_rows long_df (text_row <$> lrows long_df)
     ∧ len result = n)
  ∧ exceeds_threshold 80 100 = false
  ∧ exceeds_threshold 81 100 = true
  ∧ len (clean_numeric object (Sample.mixed_column 80 100)) = 100
  ∧ len (clean_numeric object (Sample.mixed_column 81 100)) = 81.
Proof.
  intros Hn n k nv result.
  assert (Hk : k ≤ n) by apply length_filter_le.
  pose proof (Binary64Facts.exceeds_threshold_exact k n Hk Hn) as Hex.
  subst nv. rewrite notna_sum_parseable, length_numeric_values.
  fold k n. split; [done|]. split; [done|]. split; [done|].
  subst result. rewrite clean_numeric_object. fold k n.
  split; [|split; [|repeat split; reflexivity]].
  - intros Hlt. apply Hex in Hlt. rewrite Hlt. split; [done|].
    unfold len; simpl. apply length_omap_coerced.
  - intros Hle.
    assert (exceeds_threshold k n = false) as ->.
    { apply not_true_is_false. intros E. apply Hex in E. lia. }
    split; [done|]. unfold len; simpl. by rewrite length_fmap.
Qed.

(** ** Running the scripts *)

Section run.
Context `{F : Files}.

(** The general pipeline on a readable sheet with an identifier column
    whose range can be printed and labels the melt accepts. *)
Lemma convert_stock_file_to_long_run
    (file_path output_suffix value_column_name : string) (w : world) c df date_col stock_cols :
  disk w !! file_path = Some c →
  read_sheet c = inr df →
  column_roles (columns df) = inr (date_col, stock_cols) →
  min_max (column_0 df) = None →
  melt df date_col stock_cols value_column_name = inr (melt_frame df date_col stock_cols value_column_name) →
  let melted := unpivot df date_col stock_cols value_column_name in
  let long_df := general_long df date_col stock_cols value_column_name in
  let csv_filename := csv_name file_path output_suffix in
  let lines := console w ++
                 [ Found (length (data df)) (length stock_cols);
                   Removed (len melted - len long_df);
                   Complete (len long_df);
                   Saving csv_filename ] in
  let w' := {| disk := <[csv_filename := csv_of long_df]> (disk w); console := lines |} in
  convert_stock_file_to_long file_path output_suffix value_column_name w
  = match open_error csv_filename with
    | Some e => (inl e, {| disk := disk w; console := lines |})
    | None =>
        match min_max (Date <$> records long_df) with
        | Some e => (inl e, w')
        | None => (inr (long_df, csv_filename), w')
        end
    end.
Proof.
  intros Hdisk Hread Hroles Hrange Hmelt melted long_df csv_filename lines w'.
  unfold convert_stock_file_to_long.
  unfold mbind, M_bind, read_excel. rewrite Hdisk, Hread.
  unfold lift. rewrite Hroles. unfold print at 1.
  unfold print_range at 1. rewrite Hrange. unfold mret at 1, M_ret at 1.
  rewrite Hmelt.
  cbv beta iota zeta.
  unfold print, to_csv. cbn [disk console].
  rewrite <- !(assoc_L (++)). simpl app.
  unfold print_range.
  change (drop_eq EmptyString (drop_eq "-" (dropna ?x))) with (sentinel_filter x).
  fold (unpivot df date_col stock_cols value_column_name).
  fold (general_long df date_col stock_cols value_column_name).
  fold melted long_df csv_filename. fold lines. fold w'.
  destruct (open_error csv_filename); [done|].
  destruct (min_max (Date <$> records long_df)); done.
Qed.

(** The single-file converter has no coercion step: what it reports as
    removed is what the sentinel filter removed. *)
Lemma convert_wide_to_long_csv_console (file_path : string) (w : world) c df date_col stock_cols :
  disk w !! file_path = Some c →
  read_sheet c = inr df →
  column_roles (columns df) = inr (date_col, stock_cols) →
  min_max (column_0 df) = None →
  melt df date_col stock_cols "Price" = inr (melt_frame df date_col stock_cols "Price") →
  let melted := unpivot df date_col stock_cols "Price" in
  console (convert_wide_to_long_csv file_path w).2
  = console w ++
      [ Found (length (data df)) (length stock_cols);
        Removed (sentinel_removed melted);
        Complete (len (sentinel_filter melted));
        Saving "taiwan_stocks_long_format.csv" ].
Proof.
  intros Hdisk Hread Hroles Hrange Hmelt melted.
  unfold convert_wide_to_long_csv.
  unfold mbind, M_bind, read_excel. rewrite Hdisk, Hread.
  unfold lift. rewrite Hroles. unfold print at 1.
  unfold print_range at 1. rewrite Hrange. unfold mret at 1, M_ret at 1.
  rewrite Hmelt.
  cbv beta iota zeta.
  unfold print, to_csv. cbn [disk console].
  rewrite <- !(assoc_L (++)). simpl app.
  unfold print_range.
  change (drop_eq EmptyString (drop_eq "-" (dropna ?x))) with (sentinel_filter x).
  fold (unpivot df date_col stock_cols "Price"). fold melted.
  rewrite !len_reset_index. unfold sentinel_removed.
  destruct (open_error "taiwan_stocks_long_format.csv"); [done|].
  by destruct (min_max (Date <$> records (reset_index (sentinel_filter melted)))).
Qed.

(** What the two blocks of [fix_quarterly_data_files] write. *)
Lemma fix_announcement_dates_run (w : world) c df data_rows date_col stock_cols :
  disk w !! "announcemnet date.xlsx" = Some c →
  read_sheet c = inr df →
  promote_header df = inr data_rows →
  column_roles (columns data_rows) = inr (date_col, stock_cols) →
  melt data_rows date_col stock_cols "AnnouncementDate" = inr (melt_frame data_rows date_col stock_cols "AnnouncementDate") →
  open_error "announcement_dates_fixed.csv" = None →
  let long_df := sentinel_filter (unpivot data_rows date_col stock_cols "AnnouncementDate") in
  fix_announcement_dates w
  = (inr (),
     {| disk := <["announcement_dates_fixed.csv" := csv_of long_df]> (disk w);
        console := console w ++
          [ FoundPeriods (length (data data_rows)) (Z.of_nat (length (columns data_rows)) - 1);
            Fixed (len long_df) ] |}).
Proof.
  intros Hdisk Hread Hhead Hroles Hmelt Hopen long_df.
  unfold fix_announcement_dates.
  unfold mbind, M_bind, read_excel. rewrite Hdisk, Hread.
  unfold lift. rewrite Hhead. cbv beta iota zeta. unfold print at 1.
  rewrite Hroles, Hmelt. unfold print, to_csv. rewrite Hopen. cbn [disk console].
  rewrite <- !(assoc_L (++)). done.
Qed.

Lemma fix_book_values_run (w : world) c df data_rows date_col stock_cols :
  disk w !! "book value.xlsx" = Some c →
  read_sheet c = inr df →
  promote_header df = inr data_rows →
  column_roles (columns data_rows) = inr (date_col, stock_cols) →
  melt data_rows date_col stock_cols "BookValue" = inr (melt_frame data_rows date_col stock_cols "BookValue") →
  open_error "book_values_fixed.csv" = None →
  let long_df :=
    clean_book_value (sentinel_filter (unpivot data_rows date_col stock_cols "BookValue")) in
  fix_book_values w
  = (inr (),
     {| disk := <["book_values_fixed.csv" := csv_of long_df]> (disk w);
        console := console w ++
          [ FoundPeriods (length (data data_rows)) (Z.of_nat (length (columns data_rows)) - 1);
            Fixed (len long_df) ] |}).
Proof.
  intros Hdisk Hread Hhead Hroles Hmelt Hopen long_df.
  unfold fix_book_values.
  unfold mbind, M_bind, read_excel. rewrite Hdisk, Hread.
  unfold lift. rewrite Hhead. cbv beta iota zeta. unfold print at 1.
  rewrite Hroles, Hmelt. unfold print, to_csv. rewrite Hopen. cbn [disk console].
  rewrite <- !(assoc_L (++)). done.
Qed.

(** Each block leaves every other file as it was, whether it fails or not. *)
Lemma fix_announcement_dates_frame (w : world) (handler : exception → line) (path : string) :
  path ≠ "announcement_dates_fixed.csv" →
  disk (try_except fix_announcement_dates (λ e, print (handler e)) w).2 !! path
  = disk w !! path.
Proof.
  intros Hne. unfold try_except, fix_announcement_dates.
  unfold mbind, M_bind, read_excel, lift, print, to_csv.
  destruct (disk w !! "announcemnet date.xlsx") as [c|]; [|done].
  destruct (read_sheet c) as [e|df]; [done|].
  destruct (promote_header df) as [e|data_rows]; [done|].
  destruct (column_roles (columns data_rows)) as [e|[date_col stock_cols]]; [done|].
  destruct (melt data_rows date_col stock_cols "AnnouncementDate") as [e|m]; [done|].
  destruct (open_error "announcement_dates_fixed.csv"); [done|].
  cbn [fst snd disk console]. by rewrite lookup_insert_ne.
Qed.

Lemma fix_book_values_frame (w : world) (handler : exception → line) (path : string) :
  path ≠ "book_values_fixed.csv" →
  disk (try_except fix_book_values (λ e, print (handler e)) w).2 !! path
  = disk w !! path.
Proof.
  intros Hne. unfold try_except, fix_book_values.
  unfold mbind, M_bind, read_excel, lift, print, to_csv.
  destruct (disk w !! "book value.xlsx") as [c|]; [|done].
  destruct (read_sheet c) as [e|df]; [done|].
  destruct (promote_header df) as [e|data_rows]; [done|].
  destruct (column_roles (columns data_rows)) as [e|[date_col stock_cols]]; [done|].
  destruct (melt data_rows date_col stock_cols "BookValue") as [e|m]; [done|].
  destruct (open_error "book_values_fixed.csv"); [done|].
  cbn [fst snd disk console]. by rewrite lookup_insert_ne.
Qed.

End run.

Section quarterly_run.
Context `{F : Files}.

Lemma try_except_print_total (body : M ()) (handler : exception → line) (w : world) :
  try_except body (λ e, print (handler e)) w
  = (inr (), (try_except body (λ e, print (handler e)) w).2).
Proof. unfold try_except, print. by destruct (body w) as [[e|[]] w']. Qed.

Lemma fix_quarterly_data_files_world (w : world) :
  (fix_quarterly_data_files w).2
  = (try_except fix_book_values
       (λ e, print (ErrorFixing "book values" (str_of_exception e)))
       (try_except fix_announcement_dates
          (λ e, print (ErrorFixing "announcement dates" (str_of_exception e))) w).2).2.
Proof.
  unfold fix_quarterly_data_files. unfold mbind at 1, M_bind at 1.
  by rewrite try_except_print_total.
Qed.

Lemma elem_of_committed (long_df : LongFrame) (r : nat * LongRecord) :
  r ∈ omap coerced_row (lrows long_df)
  ↔ ∃ r0 v, r0 ∈ lrows long_df ∧ parsed (Value r0.2) = Some v
            ∧ r = (r0.1, set_value r0.2 (Val v)).
Proof.
  rewrite list_elem_of_omap. split.
  - intros (r0 & Hin & Hc). unfold coerced_row in Hc.
    destruct (parsed (Value r0.2)) as [v|] eqn:E; [|done].
    simpl in Hc. injection Hc as <-. eauto.
  - intros (r0 & v & Hin & Hp & ->). exists r0. split; [done|].
    by apply coerced_row_Some.
Qed.

End quarterly_run.

(** C5 (as amended).  On a sheet that reaches the cleaning steps (it is
    read, the range of its identifier column is printed and the melt
    accepts its labels) the count printed by the general pipeline is the
    number of rows after the unpivot less the number of rows of the table
    it goes on to save: the rows taken out by the sentinel filter together
    with those dropped by the numeric coercion.  It is the sentinel count
    alone exactly when the coercion drops nothing. *)
Theorem removed_rows_counts_all_cleaning (V : Values) (F : Files)
    (file_path output_suffix value_column_name : string) (w : world) c df date_col stock_cols :
  disk w !! file_path = Some c →
  read_sheet c = inr df →
  column_roles (columns df) = inr (date_col, stock_cols) →
  min_max (column_0 df) = None →
  melt_labels_ok date_col stock_cols value_column_name = true →
  let melted := unpivot df date_col stock_cols value_column_name in
  let filtered := sentinel_filter melted in
  let long_df := general_long df date_col stock_cols value_column_name in
  let w' := (convert_stock_file_to_long file_path output_suffix value_column_name w).2 in
  console w' = console w ++
    [ Found (length (data df)) (length stock_cols);
      Removed (len melted - len long_df);
      Complete (len long_df);
      Saving (csv_name file_path output_suffix) ]
  ∧ len melted - len long_df
    = sentinel_removed melted + coercion_removed (melt_dtype df) filtered
  ∧ (len melted - len long_df = sentinel_removed melted
     ↔ coercion_removed (melt_dtype df) filtered = 0).
Proof.
  intros Hdisk Hread Hroles Hrange Hlabels melted filtered long_df w'.
  assert (Hlen : len melted - len long_df
                 = sentinel_removed melted + coercion_removed (melt_dtype df) filtered).
  { unfold sentinel_removed, coercion_removed.
    subst long_df. unfold general_long. rewrite len_reset_index.
    fold melted. fold filtered.
    pose proof (len_sentinel_filter_le melted).
    pose proof (len_clean_numeric_le (melt_dtype df) filtered).
    fold filtered in H. lia. }
  split; [|split; [done|lia]].
  subst w'.
  rewrite (convert_stock_file_to_long_run _ _ _ w c df date_col stock_cols)
    by (done || by apply melt_ok).
  fold melted long_df. destruct (open_error _); [done|].
  by destruct (min_max (Date <$> records long_df)).
Qed.

(** C6.  On a sheet that reaches its coercion (the workbook is read, has
    a row 0 whose labels the melt accepts) the book-value block of
    [fix_quarterly_data_files] always strips the commas, parses, and drops
    the rows that do not parse, whatever share of the values parses: the
    table it saves, when the output can be opened, holds exactly the
    filtered rows that denote a number, each with that number. *)
Theorem book_value_coercion_unconditional (V : Values) (F : Files)
    (w : world) c df data_rows date_col stock_cols :
  disk w !! "book value.xlsx" = Some c →
  read_sheet c = inr df →
  promote_header df = inr data_rows →
  column_roles (columns data_rows) = inr (date_col, stock_cols) →
  melt_labels_ok date_col stock_cols "BookValue" = true →
  open_error "book_values_fixed.csv" = None →
  let filtered := sentinel_filter (unpivot data_rows date_col stock_cols "BookValue") in
  let long_df := clean_book_value filtered in
  disk (fix_quarterly_data_files w).2 !! "book_values_fixed.csv" = Some (csv_of long_df)
  ∧ long_df = with_rows filtered (omap coerced_row (lrows filtered))
  ∧ (∀ r, r ∈ lrows long_df
          ↔ ∃ r0 v, r0 ∈ lrows filtered ∧ parsed (Value r0.2) = Some v
                    ∧ r = (r0.1, set_value r0.2 (Val v)))
  ∧ len long_df = length (List.filter parseable (lrows filtered)).
Proof.
  intros Hdisk Hread Hhead Hroles Hlabels Hopen filtered long_df.
  assert (Heq : long_df = with_rows filtered (omap coerced_row (lrows filtered))).
  { apply clean_book_value_eq. }
  split; [|split; [done|split]].
  - rewrite fix_quarterly_data_files_world.
    set (w1 := (try_except fix_announcement_dates _ w).2).
    assert (Hdisk1 : disk w1 !! "book value.xlsx" = Some c).
    { subst w1. by rewrite fix_announcement_dates_frame. }
    unfold try_except.
    rewrite (fix_book_values_run w1 c df data_rows date_col stock_cols)
      by (done || by apply melt_ok).
    cbn [snd disk]. by rewrite lookup_insert_eq.
  - intros r. rewrite Heq. cbn [lrows with_rows]. apply elem_of_committed.
  - rewrite Heq. unfold len. cbn [lrows with_rows]. apply length_omap_coerced.
Qed.

(** C10.  On a sheet that reaches the save (the workbook is read, has a
    row 0 whose labels the melt accepts, and the output can be opened) the
    announcement-date block of [fix_quarterly_data_files] writes the
    sentinel-filtered table as it is: every melted row whose value is not
    a sentinel is in the output with its value untouched, whether or not
    that value denotes a number. *)
Theorem announcement_dates_not_coerced (V : Values) (F : Files)
    (w : world) c df data_rows date_col stock_cols :
  disk w !! "announcemnet date.xlsx" = Some c →
  read_sheet c = inr df →
  promote_header df = inr data_rows →
  column_roles (columns data_rows) = inr (date_col, stock_cols) →
  melt_labels_ok date_col stock_cols "AnnouncementDate" = true →
  open_error "announcement_dates_fixed.csv" = None →
  let melted := unpivot data_rows date_col stock_cols "AnnouncementDate" in
  let long_df := sentinel_filter melted in
  disk (fix_quarterly_data_files w).2 !! "announcement_dates_fixed.csv" = Some (csv_of long_df)
  ∧ (∀ r, r ∈ lrows melted → is_sentinel (Value r.2) = false → r ∈ lrows long_df)
  ∧ (∀ r, r ∈ lrows long_df → r ∈ lrows melted)
  ∧ (∀ r, r ∈ lrows melted → is_sentinel (Value r.2) = false →
          parsed (Value r.2) = None → r ∈ lrows long_df).
Proof.
  intros Hdisk Hread Hhead Hroles Hlabels Hopen melted long_df.
  assert (Hkeep : ∀ r, r ∈ lrows melted → is_sentinel (Value r.2) = false → r ∈ lrows long_df).
  { intros r Hin Hs. subst long_df. apply elem_of_sentinel_filter.
    split; [done|]. by apply not_sentinel_spec. }
  split; [|split; [done|split]].
  - rewrite fix_quarterly_data_files_world.
    rewrite fix_book_values_frame by done.
    unfold try_except.
    rewrite (fix_announcement_dates_run w c df data_rows date_col stock_cols)
      by (done || by apply melt_ok).
    cbn [snd disk]. by rewrite lookup_insert_eq.
  - intros r Hin. subst long_df. by apply elem_of_sentinel_filter in Hin as [? _].
  - intros r Hin Hs _. by apply Hkeep.
Qed.

(** ** The batch driver *)

Section batch.
Context `{F : Files}.

Lemma convert_stock_file_to_long_result (file_path output_suffix value_column_name : string)
    (w : world) :
  (convert_stock_file_to_long file_path output_suffix value_column_name w).1
  = match disk w !! file_path with
    | None => inl (FileNotFoundError file_path)
    | Some c => convert_content file_path output_suffix value_column_name c
    end.
Proof.
  unfold convert_stock_file_to_long, convert_content.
  unfold mbind, M_bind, read_excel, lift, print_range, print, to_csv.
  destruct (disk w !! file_path) as [c|]; [|done].
  destruct (read_sheet c) as [e|df]; [done|].
  destruct (column_roles (columns df)) as [e|[date_col stock_cols]]; [done|].
  destruct (min_max (column_0 df)) as [e|]; [done|].
  destruct (melt df date_col stock_cols value_column_name) as [e|m] eqn:Hmelt; [done|].
  apply melt_inr in Hmelt as ->.
  cbn [fst snd disk console].
  change (drop_eq EmptyString (drop_eq "-" (dropna ?x))) with (sentinel_filter x).
  fold (unpivot df date_col stock_cols value_column_name).
  fold (general_long df date_col stock_cols value_column_name).
  destruct (open_error _); [done|].
  by destruct (min_max (Date <$> records _)).
Qed.

Lemma convert_stock_file_to_long_frame (file_path output_suffix value_column_name : string)
    (w : world) (path : string) :
  path ≠ csv_name file_path output_suffix →
  disk (convert_stock_file_to_long file_path output_suffix value_column_name w).2 !! path
  = disk w !! path.
Proof.
  intros Hne. unfold convert_stock_file_to_long.
  unfold mbind, M_bind, read_excel, lift, print_range, print, to_csv.
  destruct (disk w !! file_path) as [c|]; [|done].
  destruct (read_sheet c) as [e|df]; [done|].
  destruct (column_roles (columns df)) as [e|[date_col stock_cols]]; [done|].
  destruct (min_max (column_0 df)) as [e|]; [done|].
  destruct (melt df date_col stock_cols value_column_name) as [e|m]; [done|].
  unfold mret, M_ret, raise. destruct (open_error _); [done|].
  destruct (min_max (Date <$> records _)); cbn [fst snd disk console];
    by rewrite lookup_insert_ne.
Qed.

Lemma expected_result_ext (config : file_config) (w w' : world) :
  disk w !! file config = disk w' !! file config →
  expected_result config w = expected_result config w'.
Proof.
  intros Heq. unfold expected_result.
  rewrite !convert_stock_file_to_long_result, <- Heq. done.
Qed.

Lemma convert_one_frame (config : file_config) (w : world) (path : string) :
  path ≠ csv_name (file config) (suffix config) →
  disk (convert_one config w).2 !! path = disk w !! path.
Proof.
  intros Hne.
  pose proof (convert_stock_file_to_long_frame (file config) (suffix config)
                (config_value_name config) w path Hne) as Hframe.
  unfold convert_one, try_except, exists_.
  unfold mbind at 1, M_bind at 1.
  destruct (bool_decide (is_Some (disk w !! file config))); [|done].
  unfold mbind, M_bind.
  by destruct (convert_stock_file_to_long _ _ _ w) as [[e|[df filename]] w'].
Qed.

Lemma convert_one_result (config : file_config) (w : world) :
  (convert_one config w).1 = inr (expected_result config w).
Proof.
  unfold convert_one, expected_result, try_except, exists_.
  unfold mbind at 1, M_bind at 1.
  destruct (disk w !! file config) as [c|] eqn:E.
  - rewrite bool_decide_eq_true_2 by eauto.
    unfold mbind, M_bind.
    by destruct (convert_stock_file_to_long _ _ _ w) as [[e|[df filename]] w'].
  - rewrite bool_decide_eq_false_2 by (intros [? ?]; done). done.
Qed.

Lemma convert_each_cons (config : file_config) rest results (w : world) :
  convert_each (config :: rest) results w
  = convert_each rest (results ++ [expected_result config w]) (convert_one config w).2.
Proof.
  pose proof (convert_one_result config w) as H.
  simpl. unfold mbind, M_bind.
  destruct (convert_one config w) as [[e|r] w1]; simpl in *; [done|].
  by injection H as ->.
Qed.

Lemma convert_each_world (configs : list file_config) results results' (w : world) :
  (convert_each configs results w).2 = (convert_each configs results' w).2.
Proof.
  revert results results' w. induction configs as [|config rest IH]; intros; [done|].
  rewrite !convert_each_cons. apply IH.
Qed.

Lemma convert_each_spec (configs : list file_config) results (w : world) :
  ∃ rs,
    (convert_each configs results w).1 = inr (results ++ rs)
    ∧ length rs = length configs
    ∧ ∀ i config, configs !! i = Some config →
        rs !! i = Some (expected_result config (world_before configs w i)).
Proof.
  revert results w. induction configs as [|config rest IH]; intros results w.
  - exists []. simpl. rewrite app_nil_r. split; [done|]. split; [done|]. intros; done.
  - rewrite convert_each_cons.
    destruct (IH (results ++ [expected_result config w]) (convert_one config w).2)
      as (rs & Hrun & Hlen & Hrs).
    exists (expected_result config w :: rs). split; [|split].
    + rewrite Hrun. by rewrite <- (assoc_L (++)).
    + simpl. by rewrite Hlen.
    + intros [|i] config' Hi; simpl in Hi.
      * injection Hi as <-. done.
      * change ((expected_result config w :: rs) !! S i) with (rs !! i).
        rewrite (Hrs i config' Hi). do 2 f_equal.
        unfold world_before. simpl take. rewrite convert_each_cons.
        apply convert_each_world.
Qed.

Lemma report_each_spec (results : list conversion_result) (successful total_rows : nat)
    (w : world) :
  ∃ lines,
    report_each results successful total_rows w
    = (inr (successful + successful_count results, total_rows + total_rows_of results),
       {| disk := disk w; console := console w ++ lines |}).
Proof.
  revert successful total_rows w.
  induction results as [|result rest IH]; intros successful total_rows w.
  - exists []. simpl. unfold successful_count, total_rows_of; simpl.
    rewrite app_nil_r, !Nat.add_0_r. by destruct w.
  - simpl. unfold successful_count, total_rows_of. rewrite !filter_cons.
    unfold mbind, M_bind, print. cbn [disk console].
    destruct (success result) eqn:Hs; [|destruct (error result) as [message|]];
      match goal with
      | |- context [report_each rest ?a ?b ?w0] =>
          destruct (IH a b w0) as [lines Hl]; rewrite Hl; cbn [disk console]
      end.
    + exists ([Status true (result_description result) (rows result);
               Output (default EmptyString (output_file result))] ++ lines).
      rewrite <- !(assoc_L (++)). simpl.
      unfold successful_count, total_rows_of.
      f_equal. f_equal. f_equal; [lia|].
      change (list_fmap conversion_result nat rows) with (fmap (M:=list) rows). lia.
    + exists ([Status false (result_description result) 0; ErrorLine message] ++ lines).
      rewrite <- !(assoc_L (++)). done.
    + exists ([Status false (result_description result) 0] ++ lines).
      rewrite <- !(assoc_L (++)). done.
Qed.

Lemma convert_each_frame (configs : list file_config) results (w : world) (path : string) :
  Forall (λ config, path ≠ csv_name (file config) (suffix config)) configs →
  disk (convert_each configs results w).2 !! path = disk w !! path.
Proof.
  revert results w. induction configs as [|config rest IH]; intros results w Hall; [done|].
  apply Forall_cons in Hall as [Hne Hall].
  rewrite convert_each_cons, IH by done. by apply convert_one_frame.
Qed.

Lemma no_clobber_spec (configs : list file_config) config config' :
  no_clobber configs = true → config ∈ configs → config' ∈ configs →
  file config' ≠ csv_name (file config) (suffix config).
Proof.
  unfold no_clobber. rewrite forallb_forall. intros Hall Hin Hin'.
  apply list_elem_of_In in Hin, Hin'.
  specialize (Hall config Hin). rewrite forallb_forall in Hall.
  specialize (Hall config' Hin'). apply negb_true_iff, String.eqb_neq in Hall.
  congruence.
Qed.

Lemma world_before_disk (configs : list file_config) (w : world) (i : nat) config :
  no_clobber configs = true → config ∈ configs →
  disk (world_before configs w i) !! file config = disk w !! file config.
Proof.
  intros Hnc Hin. unfold world_before. apply convert_each_frame.
  apply Forall_forall. intros config' Hin'.
  apply (no_clobber_spec configs); [done| |done].
  apply elem_of_take in Hin' as (k & Hk & _). by eapply list_elem_of_lookup_2.
Qed.

Lemma successes_and_missing (w : world) (configs : list file_config) :
  (∀ config, config ∈ configs → is_missing w config = false →
             success (expected_result config w) = true) →
  successful_count ((λ config, expected_result config w) <$> configs)
  + length (List.filter (is_missing w) configs) = length configs.
Proof.
  unfold successful_count.
  induction configs as [|config rest IH]; intros Hok; [done|].
  rewrite fmap_cons, !filter_cons.
  assert (Hrest : ∀ c, c ∈ rest → is_missing w c = false →
                       success (expected_result c w) = true).
  { intros c Hc. apply Hok. by right. }
  specialize (IH Hrest).
  destruct (is_missing w config) eqn:Hm.
  - assert (expected_result config w = missing_result config) as ->.
    { unfold expected_result, is_missing in *. by destruct (disk w !! file config). }
    simpl. lia.
  - rewrite (Hok config) by (done || by left). simpl. lia.
Qed.

Lemma convert_all_stock_files_spec (configs : list file_config) (w : world) :
  ∃ results w',
    convert_all_stock_files configs w = (inr results, w')
    ∧ length results = length configs
    ∧ (∀ i config, configs !! i = Some config →
         results !! i = Some (expected_result config (world_before configs w i)))
    ∧ ∃ earlier,
        console w' = earlier ++
          [ Summary (successful_count results) (length configs);
            TotalPoints (total_rows_of results) ].
Proof.
  destruct (convert_each_spec configs [] w) as (results & Hrun & Hlen & Hres).
  simpl in Hrun.
  unfold convert_all_stock_files. unfold mbind at 1, M_bind at 1.
  destruct (convert_each configs [] w) as [r w1]. simpl in Hrun. subst r.
  unfold mbind at 1, M_bind at 1.
  destruct (report_each_spec results 0 0 w1) as [lines ->]. simpl.
  unfold mbind, M_bind, print, mret, M_ret. cbn [disk console].
  eexists results, _. split; [done|]. split; [done|]. split; [done|].
  exists (console w1 ++ lines). by rewrite <- !(assoc_L (++)).
Qed.

Lemma convert_all_stock_files_initial (configs : list file_config) (w : world) :
  no_clobber configs = true →
  ∃ w' earlier,
    let results := (λ config, expected_result config w) <$> configs in
    convert_all_stock_files configs w = (inr results, w')
    ∧ console w' = earlier ++
        [ Summary (successful_count results) (length configs);
          TotalPoints (total_rows_of results) ].
Proof.
  intros Hnc.
  destruct (convert_all_stock_files_spec configs w)
    as (results & w' & Hrun & Hlen & Hres & earlier & Hout).
  assert (Heq : results = (λ config, expected_result config w) <$> configs).
  { apply list_eq. intros i. rewrite list_lookup_fmap.
    destruct (configs !! i) as [config|] eqn:Hi; simpl.
    - rewrite (Hres i config Hi). f_equal. apply expected_result_ext.
      apply world_before_disk; [done|]. by eapply list_elem_of_lookup_2.
    - apply lookup_ge_None. apply lookup_ge_None in Hi. lia. }
  subst results. by exists w', earlier.
Qed.

End batch.

(** C4.  The batch driver never raises and records one result per
    configured file, in order: a failure with no rows for a file that is
    absent when its turn comes, a failure with the error's text when the
    conversion raises, and a success with the row count otherwise; the
    report ends with the number of successes over the number of configured
    files and the rows summed over the successes.  For the five configured
    files no output overwrites an input, so the results are those of the
    disk the run starts from: with two of the files missing and the three
    others converting, the report reads 3/5 and each missing file is
    recorded with no rows and no success. *)
Theorem batch_isolates_failures :
  (∀ (V : Values) (F : Files) (configs : list file_config) (w : world),
      ∃ results w',
        convert_all_stock_files configs w = (inr results, w')
        ∧ length results = length configs
        ∧ (∀ i config, configs !! i = Some config →
             results !! i = Some (expected_result config (world_before configs w i)))
        ∧ ∃ earlier,
            console w' = earlier ++
              [ Summary (successful_count results) (length configs);
                TotalPoints (total_rows_of results) ])
  ∧ (∀ (V : Values) (F : Files) (config : file_config) (w : world),
      (disk w !! file config = None →
       expected_result config w = missing_result config)
      ∧ (∀ e, is_Some (disk w !! file config) →
           (convert_stock_file_to_long
              (file config) (suffix config) (config_value_name config) w).1 = inl e →
           expected_result config w = failure_result config e)
      ∧ (∀ df filename, is_Some (disk w !! file config) →
           (convert_stock_file_to_long
              (file config) (suffix config) (config_value_name config) w).1
           = inr (df, filename) →
           expected_result config w = success_result config (len df) filename))
  ∧ (∀ (V : Values) (F : Files) (w : world),
      length (List.filter (is_missing w) files_config) = 2 →
      (∀ config, config ∈ files_config → is_missing w config = false →
                 success (expected_result config w) = true) →
      ∃ w' earlier,
        let results := (λ config, expected_result config w) <$> files_config in
        convert_all_stock_files files_config w = (inr results, w')
        ∧ console w' = earlier ++ [Summary 3 5; TotalPoints (total_rows_of results)]
        ∧ ∀ config, config ∈ files_config → is_missing w config = true →
            ∃ r, r ∈ results ∧ original_file r = file config
                 ∧ rows r = 0 ∧ success r = false).
Proof.
  split; [|split].
  - intros V F configs w. apply convert_all_stock_files_spec.
  - intros V F config w. unfold expected_result. repeat split.
    + by intros ->.
    + intros e [c ->] ->. done.
    + intros df filename [c ->] ->. done.
  - intros V F w Hmissing Hok.
    destruct (convert_all_stock_files_initial files_config w eq_refl)
      as (w' & earlier & Hrun & Hout).
    pose proof (successes_and_missing w files_config Hok) as Hcount.
    rewrite Hmissing in Hcount. change (length files_config) with 5 in Hcount.
    exists w', earlier. cbv zeta in *. split; [done|]. split.
    + rewrite Hout. change (length files_config) with 5.
      replace (successful_count _) with 3 by lia. done.
    + intros config Hin Hm. exists (expected_result config w).
      split; [by apply (list_elem_of_fmap_2 (λ config, expected_result config w))|].
      unfold expected_result, is_missing in *.
      by destruct (disk w !! file config).
Qed.

(** C8.  Commas are stripped from every value before it is parsed, so
    that the text [63,292,145] is read as what the parser makes of
    [63292145]: the integer 63292145. *)
Theorem comma_separated_number_coerces (V : Values) (n : scalar) :
  to_numeric "63292145" = Some n →
  str_replace_comma "63,292,145" = "63292145"
  ∧ parsed (Str "63,292,145") = Some n
  ∧ (∀ s, has_char "," (str_replace_comma s) = false)
  ∧ (∀ (long_df : LongFrame) i r,
       (i, r) ∈ lrows long_df → Value r = Str "63,292,145" →
       (i, set_value r (Val n)) ∈ lrows (clean_book_value long_df)
       ∧ (exceeds_threshold (length (List.filter parseable (lrows long_df))) (len long_df)
          = true →
          (i, set_value r (Val n)) ∈ lrows (clean_numeric object long_df)))
  ∧ (∀ id name i r,
       Value r = Str "63,292,145" →
       clean_numeric object {| id_name := id; value_name := name; lrows := [(i, r)] |}
       = {| id_name := id; value_name := name; lrows := [(i, set_value r (Val n))] |}).
Proof.
  intros Hn.
  assert (Hparsed : parsed (Str "63,292,145") = Some n) by done.
  split; [done|]. split; [done|]. split; [|split].
  - induction s as [|c s IH]; [done|]. simpl.
    destruct (Ascii.eqb c ",") eqn:E; [done|]. simpl. by rewrite E.
  - intros long_df i r Hin Hv.
    assert (Hc : (i, set_value r (Val n)) ∈ omap coerced_row (lrows long_df)).
    { apply list_elem_of_omap. exists (i, r). split; [done|].
      apply (coerced_row_Some (i, r)). simpl. by rewrite Hv. }
    split.
    + by rewrite clean_book_value_eq.
    + intros Hcommit. rewrite clean_numeric_object, Hcommit. done.
  - intros id name i r Hv. rewrite clean_numeric_object. unfold len. cbn [lrows].
    rewrite filter_cons. rewrite (parseable_Some (i, r) n) by (simpl; by rewrite Hv).
    change (exceeds_threshold _ _) with true. cbv iota.
    unfold with_rows. cbn [lrows id_name value_name]. rewrite omap_cons_eq.
    rewrite (coerced_row_Some (i, r) n) by (simpl; by rewrite Hv). done.
Qed.

(** C5 (as stated) fails: on a sheet with one text column holding five
    numbers and one word the sentinel filter removes nothing, the committed
    coercion drops the word, and the pipeline reports one removed row. *)
Lemma removed_rows_include_coercion_drops :
  let w := Sample.world_with [("tv.xlsx", Sample.five_of_six)] in
  let melted := unpivot Sample.five_of_six (Str "Date") [Str "2330"] "Volume" in
  let w' := (convert_stock_file_to_long "tv.xlsx" "_volume" "Volume" w).2 in
  len melted - len (sentinel_filter melted) = 0
  ∧ console w' = [Found 6 1; Removed 1; Complete 5; Saving "tv_volume_long_format.csv"]
  ∧ ¬ Removed (len melted - len (sentinel_filter melted)) ∈ console w'.
Proof.
  intros w melted w'.
  assert (Hnone : len melted - len (sentinel_filter melted) = 0) by reflexivity.
  assert (Hout : console w'
                 = [Found 6 1; Removed 1; Complete 5; Saving "tv_volume_long_format.csv"])
    by reflexivity.
  split; [done|]. split; [done|].
  rewrite Hnone, Hout. intros H.
  repeat (apply elem_of_cons in H as [H|H]; [discriminate H|]).
  by apply elem_of_nil in H.
Qed.

(** ** The theorems at concrete inputs *)

Lemma rectangular_two_by_two : rectangular Sample.two_by_two.
Proof. split; [repeat constructor|reflexivity|reflexivity]. Qed.

Lemma rectangular_quarterly : rectangular Sample.quarterly.
Proof. split; [repeat constructor|reflexivity|reflexivity]. Qed.

Lemma four_of_five_keeps_text :
  (Z.of_nat (len (Sample.mixed_column 4 5)) < 2 ^ 50)%Z
  ∧ clean_numeric object (Sample.mixed_column 4 5)
    = with_rows (Sample.mixed_column 4 5) (text_row <$> lrows (Sample.mixed_column 4 5)).
Proof.
  assert (H : (Z.of_nat (len (Sample.mixed_column 4 5)) < 2 ^ 50)%Z) by reflexivity.
  split; [exact H|].
  pose proof (coercion_commits_above_threshold Sample.IntValues (Sample.mixed_column 4 5) H)
    as Hthm.
  cbv zeta in Hthm. destruct Hthm as (_ & _ & _ & _ & Hkeep & _).
  apply Hkeep. apply Nat.leb_le. reflexivity.
Defined.

Lemma quarterly_header_promoted :
  rectangular Sample.quarterly
  ∧ 0 < length (data Sample.quarterly)
  ∧ 0 < length (columns Sample.quarterly)
  ∧ ∃ data_rows,
      promote_header Sample.quarterly = inr data_rows
      ∧ columns data_rows = [Str "Period"; Str "1101 X"; Str "1102 Y"]
      ∧ length (data data_rows) = 2.
Proof.
  assert (H1 : 0 < length (data Sample.quarterly)) by (apply Nat.ltb_lt; reflexivity).
  assert (H2 : 0 < length (columns Sample.quarterly)) by (apply Nat.ltb_lt; reflexivity).
  split; [exact rectangular_quarterly|]. split; [exact H1|]. split; [exact H2|].
  destruct (header_offset_promotes_row_0 Sample.IntValues Sample.quarterly
              rectangular_quarterly H1 H2)
    as (actual_columns & rest & data_rows & date_col & stock_cols
        & Hdata & Hhead & Hcols & Hrest & _).
  exists data_rows. split; [exact Hhead|].
  injection Hdata as <- <-. split; [exact Hcols|]. by rewrite Hrest.
Defined.

Lemma two_by_two_melts_to_four :
  rectangular Sample.two_by_two
  ∧ column_roles (columns Sample.two_by_two) = inr (Str "Period", [Str "S1"; Str "S2"])
  ∧ @melt_labels_ok Sample.IntValues (Str "Period") [Str "S1"; Str "S2"] "Price" = true
  ∧ ∃ melted,
      melt Sample.two_by_two (Str "Period") [Str "S1"; Str "S2"] "Price" = inr melted
      ∧ len (rename_date melted) = 2 * 2.
Proof.
  split; [exact rectangular_two_by_two|]. split; [reflexivity|]. split; [reflexivity|].
  destruct (unpivot_one_record_per_pair Sample.IntValues Sample.two_by_two
              (Str "Period") [Str "S1"; Str "S2"] "Price" rectangular_two_by_two
              eq_refl eq_refl) as (melted & Hmelt & Hlen & _).
  exists melted. split; [exact Hmelt|exact Hlen].
Defined.

Lemma five_of_six_removed_rows :
  let w := Sample.world_with [("tv.xlsx", Sample.five_of_six)] in
  let melted := unpivot Sample.five_of_six (Str "Date") [Str "2330"] "Volume" in
  disk w !! "tv.xlsx" = Some (inl Sample.five_of_six)
  ∧ @melt_labels_ok Sample.IntValues (Str "Date") [Str "2330"] "Volume" = true
  ∧ len melted - len (general_long Sample.five_of_six (Str "Date") [Str "2330"] "Volume")
    = sentinel_removed melted
      + coercion_removed (melt_dtype Sample.five_of_six) (sentinel_filter melted).
Proof.
  intros w melted.
  assert (Hdisk : disk w !! "tv.xlsx" = Some (inl Sample.five_of_six)) by reflexivity.
  split; [exact Hdisk|]. split; [reflexivity|].
  apply (removed_rows_counts_all_cleaning Sample.IntValues Sample.SheetFiles
           "tv.xlsx" "_volume" "Volume" w (inl Sample.five_of_six) Sample.five_of_six
           (Str "Date") [Str "2330"] Hdisk eq_refl eq_refl eq_refl eq_refl).
Defined.

Lemma quarterly_book_values_written :
  let w := Sample.world_with [("book value.xlsx", Sample.quarterly)] in
  disk w !! "book value.xlsx" = Some (inl Sample.quarterly)
  ∧ @melt_labels_ok Sample.IntValues (Str "Period") [Str "1101 X"; Str "1102 Y"] "BookValue" = true
  ∧ exceeds_threshold 2 3 = false
  ∧ ∃ long_df,
      disk (fix_quarterly_data_files w).2 !! "book_values_fixed.csv" = Some (csv_of long_df)
      ∧ Value <$> records long_df
        = [@Val Sample.IntValues 63292145%Z; @Val Sample.IntValues 1250%Z].
Proof.
  intros w.
  assert (Hdisk : disk w !! "book value.xlsx" = Some (inl Sample.quarterly))
    by reflexivity.
  split; [exact Hdisk|]. split; [reflexivity|]. split; [reflexivity|].
  eexists. split.
  - apply (book_value_coercion_unconditional Sample.IntValues Sample.SheetFiles
             w (inl Sample.quarterly) Sample.quarterly _ _ _
             Hdisk eq_refl eq_refl eq_refl eq_refl eq_refl).
  - reflexivity.
Defined.

Lemma quarterly_announcements_written :
  let w := Sample.world_with [("announcemnet date.xlsx", Sample.announcements)] in
  disk w !! "announcemnet date.xlsx" = Some (inl Sample.announcements)
  ∧ @melt_labels_ok Sample.IntValues (Str "Period") [Str "1101 X"; Str "1102 Y"] "AnnouncementDate" = true
  ∧ ∃ long_df,
      disk (fix_quarterly_data_files w).2 !! "announcement_dates_fixed.csv"
      = Some (csv_of long_df)
      ∧ Value <$> records long_df
        = [@Str Sample.IntValues "2020/05/15"; Str "pending"; Str "2020/08/14"].
Proof.
  intros w.
  assert (Hdisk : disk w !! "announcemnet date.xlsx" = Some (inl Sample.announcements))
    by reflexivity.
  split; [exact Hdisk|]. split; [reflexivity|].
  eexists. split.
  - apply (announcement_dates_not_coerced Sample.IntValues Sample.SheetFiles
             w (inl Sample.announcements) Sample.announcements _ _ _
             Hdisk eq_refl eq_refl eq_refl eq_refl eq_refl).
  - reflexivity.
Defined.

Lemma single_value_read_as_integer :
  @to_numeric Sample.IntValues "63292145" = Some 63292145%Z
  ∧ @parsed Sample.IntValues (Str "63,292,145") = Some 63292145%Z
  ∧ records (clean_numeric object Sample.single_value)
    = [ {| Date := Str "2020-01-02"; Stock := Str "2330"; Value := @Val Sample.IntValues 63292145%Z |} ].
Proof.
  assert (H : @to_numeric Sample.IntValues "63292145" = Some 63292145%Z) by reflexivity.
  split; [exact H|].
  destruct (comma_separated_number_coerces Sample.IntValues 63292145%Z H)
    as (_ & Hparsed & _ & _ & Hsingle).
  split; [exact Hparsed|].
  unfold Sample.single_value. rewrite Hsingle by reflexivity. reflexivity.
Defined.

Lemma two_by_two_keeps_200 :
  let melted := unpivot Sample.two_by_two (Str "Period") [Str "S1"; Str "S2"] "Price" in
  let r := (1, {| Date := Str "P2"; Stock := Str "S1"; Value := @Val Sample.IntValues 200%Z |}) in
  r ∈ lrows melted ∧ r ∈ lrows (sentinel_filter melted).
Proof.
  intros melted r.
  assert (Hin : r ∈ lrows melted) by (apply list_elem_of_In; right; left; reflexivity).
  split; [exact Hin|].
  destruct sentinel_filter_removes_exactly_sentinels as [Hall _].
  destruct (Hall Sample.IntValues melted) as [_ Hiff].
  apply Hiff. split; [exact Hin|]. repeat split; discriminate.
Defined.

Lemma three_of_five_reports_3_of_5 :
  length (List.filter (is_missing Sample.three_of_five) files_config) = 2
  ∧ (∀ config, config ∈ files_config → is_missing Sample.three_of_five config = false →
               success (expected_result config Sample.three_of_five) = true)
  ∧ ∃ earlier,
      console (convert_all_stock_files files_config Sample.three_of_five).2
      = earlier ++ [Summary 3 5; TotalPoints 13].
Proof.
  assert (Hmissing : length (List.filter (is_missing Sample.three_of_five) files_config) = 2)
    by reflexivity.
  assert (Hok : ∀ config, config ∈ files_config →
                  is_missing Sample.three_of_five config = false →
                  success (expected_result config Sample.three_of_five) = true).
  { intros config Hin Hm. unfold files_config in Hin.
    repeat (apply elem_of_cons in Hin as [->|Hin]; [first [discriminate Hm|reflexivity]|]).
    by apply elem_of_nil in Hin. }
  split; [exact Hmissing|]. split; [exact Hok|].
  destruct batch_isolates_failures as (_ & _ & Hscenario).
  destruct (Hscenario Sample.IntValues Sample.SheetFiles Sample.three_of_five Hmissing Hok)
    as (w' & earlier & Hrun & Hout & _).
  exists earlier. rewrite Hrun. simpl snd. rewrite Hout. reflexivity.
Defined.

(** * Further properties of the scripts *)

(** ** Output file names *)

Lemma string_app_cons (x : ascii) (a b : string) : String x a +:+ b = String x (a +:+ b).
Proof. done. Qed.

Lemma string_app_nil (b : string) : EmptyString +:+ b = b.
Proof. done. Qed.

Lemma string_app_assoc (a b c : string) : (a +:+ b) +:+ c = a +:+ (b +:+ c).
Proof. induction a as [|x a IH]; (rewrite ?string_app_cons, ?string_app_nil; simpl); [done|]. by rewrite IH. Qed.

Lemma string_app_nil_r (a : string) : a +:+ EmptyString = a.
Proof. induction a as [|x a IH]; (rewrite ?string_app_cons, ?string_app_nil; simpl); [done|]. by rewrite IH. Qed.

Lemma string_length_app (a b : string) :
  String.length (a +:+ b) = String.length a + String.length b.
Proof. induction a as [|x a IH]; (rewrite ?string_app_cons, ?string_app_nil; simpl); [done|]. by rewrite IH. Qed.

Lemma has_char_app (x : ascii) (a b : string) :
  has_char x (a +:+ b) = has_char x a || has_char x b.
Proof. induction a as [|y a IH]; (rewrite ?string_app_cons, ?string_app_nil; simpl); [done|]. by rewrite IH, orb_assoc. Qed.

Lemma basename_no_slash (p : string) : has_char "/" p = false → basename p = p.
Proof.
  destruct p as [|c rest]; [done|]. simpl.
  intros [Hc Hrest]%orb_false_iff. by rewrite Hrest, Hc.
Qed.

Lemma basename_after_slash (dir name : string) :
  has_char "/" name = false → basename (dir +:+ String "/" name) = name.
Proof.
  intros Hname. induction dir as [|c dir IH]; (rewrite ?string_app_cons, ?string_app_nil; simpl).
  - by rewrite Hname.
  - rewrite has_char_app. simpl. by rewrite orb_true_r.
Qed.

Lemma has_char_basename (p : string) : has_char "/" (basename p) = false.
Proof.
  induction p as [|c rest IH]; [done|]. simpl.
  destruct (has_char "/" rest) eqn:Hrest; [done|].
  destruct (Ascii.eqb c "/") eqn:Hc; [done|]. simpl. by rewrite Hc, Hrest.
Qed.

Lemma before_last_dot_ext (name ext : string) :
  has_char "." ext = false → before_last_dot (name +:+ String "." ext) = name.
Proof.
  intros Hext. induction name as [|c name IH]; (rewrite ?string_app_cons, ?string_app_nil; simpl).
  - by rewrite Hext.
  - rewrite has_char_app. simpl. by rewrite orb_true_r, IH.
Qed.

Lemma splitext_root_cons (c : ascii) (rest : string) :
  splitext_root (String c rest)
  = if Ascii.eqb c "." then String c (splitext_root rest) else before_last_dot (String c rest).
Proof. done. Qed.

Lemma splitext_root_ext (name ext : string) :
  has_non_dot name = true → has_char "." ext = false →
  splitext_root (name +:+ String "." ext) = name.
Proof.
  intros Hname Hext. induction name as [|c name IH]; [done|].
  simpl in Hname. rewrite string_app_cons, splitext_root_cons.
  destruct (Ascii.eqb c ".") eqn:Hc; simpl in Hname.
  - by rewrite IH.
  - rewrite <- string_app_cons. apply (before_last_dot_ext (String c name) ext Hext).
Qed.

Lemma before_last_dot_prefix (s : string) : ∃ ext, s = before_last_dot s +:+ ext.
Proof.
  induction s as [|c s [ext IH]]; [by exists EmptyString|]. simpl.
  destruct (has_char "." s).
  - exists ext. rewrite string_app_cons. by rewrite <- IH.
  - destruct (Ascii.eqb c "."); [by exists (String c s)|].
    exists EmptyString. by rewrite string_app_nil_r.
Qed.

Lemma splitext_root_prefix (p : string) : ∃ ext, p = splitext_root p +:+ ext.
Proof.
  induction p as [|c p [ext IH]]; [by exists EmptyString|].
  rewrite splitext_root_cons. destruct (Ascii.eqb c ".").
  - exists ext. rewrite string_app_cons. by rewrite <- IH.
  - apply before_last_dot_prefix.
Qed.

Lemma has_char_splitext_root (x : ascii) (p : string) :
  has_char x p = false → has_char x (splitext_root p) = false.
Proof.
  destruct (splitext_root_prefix p) as [ext Hp]. rewrite Hp at 1.
  rewrite has_char_app. by intros [? _]%orb_false_iff.
Qed.

Lemma has_non_dot_app_r (a b : string) : has_non_dot b = true → has_non_dot (a +:+ b) = true.
Proof.
  intros Hb. induction a as [|c a IH]; (rewrite ?string_app_cons, ?string_app_nil; simpl); [done|]. by rewrite IH, orb_true_r.
Qed.

(** X1.  The directory of the input plays no part in the output name, and
    for a name with an extension the output is the name without it, then
    the suffix, then [_long_format.csv]. *)
Theorem csv_name_of_path (dir name ext output_suffix : string) :
  has_char "/" name = false →
  has_char "/" ext = false →
  has_char "." ext = false →
  has_non_dot name = true →
  csv_name (dir +:+ "/" +:+ name +:+ "." +:+ ext) output_suffix
  = name +:+ output_suffix +:+ "_long_format.csv"
  ∧ csv_name (name +:+ "." +:+ ext) output_suffix
    = name +:+ output_suffix +:+ "_long_format.csv".
Proof.
  intros Hname Hext Hdot Hnon.
  change ("." +:+ ext) with (String "." ext).
  change ("/" +:+ name +:+ String "." ext) with (String "/" (name +:+ String "." ext)).
  assert (Hfile : has_char "/" (name +:+ String "." ext) = false).
  { rewrite !has_char_app. simpl. by rewrite Hname, Hext. }
  unfold csv_name. split.
  - rewrite basename_after_slash by done. by rewrite splitext_root_ext.
  - rewrite basename_no_slash by done. by rewrite splitext_root_ext.
Qed.

Lemma csv_name_ne_file (file_path output_suffix : string) :
  has_char "/" output_suffix = false → csv_name file_path output_suffix ≠ file_path.
Proof.
  intros Hsuffix Heq.
  assert (Hslash : has_char "/" file_path = false).
  { rewrite <- Heq. unfold csv_name. rewrite !has_char_app, Hsuffix.
    rewrite has_char_splitext_root by apply has_char_basename. done. }
  unfold csv_name in Heq. rewrite basename_no_slash in Heq by done.
  set (root := splitext_root file_path) in *.
  assert (Hroot : root = root +:+ output_suffix +:+ "_long_format").
  { unfold root at 1. rewrite <- Heq at 1.
    change "_long_format.csv" with ("_long_format" +:+ String "." "csv").
    rewrite <- !string_app_assoc. rewrite splitext_root_ext; [|by apply has_non_dot_app_r|done].
    by rewrite !string_app_assoc. }
  apply (f_equal String.length) in Hroot.
  rewrite !string_length_app in Hroot. simpl in Hroot. lia.
Qed.

(** X2.  With a suffix free of [/] the output name is never the input
    path, so the pipeline does not overwrite the file it reads; a suffix
    holding a [/] can make the two coincide. *)
Theorem csv_name_is_not_the_input (file_path output_suffix : string) :
  has_char "/" output_suffix = false →
  csv_name file_path output_suffix ≠ file_path
  ∧ csv_name "y_long_format/y_long_format.csv" "/y" = "y_long_format/y_long_format.csv".
Proof.
  intros Hsuffix. split; [by apply csv_name_ne_file|reflexivity].
Qed.

(** ** The two converters on one file *)

Section converters.
Context `{F : Files}.

Lemma convert_wide_to_long_csv_run (file_path : string) (w : world) c df date_col stock_cols :
  disk w !! file_path = Some c →
  read_sheet c = inr df →
  column_roles (columns df) = inr (date_col, stock_cols) →
  min_max (column_0 df) = None →
  melt df date_col stock_cols "Price" = inr (melt_frame df date_col stock_cols "Price") →
  open_error "taiwan_stocks_long_format.csv" = None →
  let melted := unpivot df date_col stock_cols "Price" in
  let long_df := reset_index (sentinel_filter melted) in
  let w' := {| disk := <["taiwan_stocks_long_format.csv" := csv_of long_df]> (disk w);
               console := console w ++
                 [ Found (length (data df)) (length stock_cols);
                   Removed (sentinel_removed melted);
                   Complete (len long_df);
                   Saving "taiwan_stocks_long_format.csv" ] |} in
  convert_wide_to_long_csv file_path w
  = match min_max (Date <$> records long_df) with
    | Some e => (inl e, w')
    | None => (inr long_df, w')
    end.
Proof.
  intros Hdisk Hread Hroles Hrange Hmelt Hopen melted long_df w'.
  unfold convert_wide_to_long_csv.
  unfold mbind, M_bind, read_excel. rewrite Hdisk, Hread.
  unfold lift. rewrite Hroles. unfold print at 1.
  unfold print_range at 1. rewrite Hrange. unfold mret at 1, M_ret at 1.
  rewrite Hmelt.
  cbv beta iota zeta.
  unfold print, to_csv. rewrite Hopen. cbn [disk console].
  rewrite <- !(assoc_L (++)). simpl app.
  unfold print_range.
  change (drop_eq EmptyString (drop_eq "-" (dropna ?x))) with (sentinel_filter x).
  fold (unpivot df date_col stock_cols "Price"). fold melted. fold long_df.
  replace (len melted - len long_df) with (sentinel_removed melted)
    by (unfold long_df, sentinel_removed; by rewrite len_reset_index).
  fold w'.
  by destruct (min_max (Date <$> records long_df)).
Qed.

Lemma records_reset_index (long_df : LongFrame) :
  records (reset_index long_df) = records long_df.
Proof.
  unfold reset_index, records at 1. cbn [lrows with_rows].
  apply snd_zip. rewrite length_seq. unfold records, len. by rewrite length_fmap.
Qed.

Lemma index_reset_index (long_df : LongFrame) :
  (lrows (reset_index long_df)).*1 = seq 0 (len long_df).
Proof.
  unfold reset_index. cbn [lrows with_rows].
  apply fst_zip. rewrite length_seq. unfold records, len. by rewrite length_fmap.
Qed.

End converters.

(** X3.  On a readable sheet whose labels the melt accepts, and when the
    output can be opened, the single-file converter returns the melted
    table without its sentinel rows, labelled afresh from 0, writes it to
    [taiwan_stocks_long_format.csv] whatever the input path, and reports as
    removed exactly the rows the sentinel filter took out. *)
Theorem single_file_converter_result (V : Values) (F : Files)
    (file_path : string) (w : world) c df date_col stock_cols :
  disk w !! file_path = Some c →
  read_sheet c = inr df →
  column_roles (columns df) = inr (date_col, stock_cols) →
  min_max (column_0 df) = None →
  melt_labels_ok date_col stock_cols "Price" = true →
  open_error "taiwan_stocks_long_format.csv" = None →
  let melted := unpivot df date_col stock_cols "Price" in
  let long_df := reset_index (sentinel_filter melted) in
  min_max (Date <$> records long_df) = None →
  ∃ w',
    convert_wide_to_long_csv file_path w = (inr long_df, w')
    ∧ records long_df = records (sentinel_filter melted)
    ∧ (lrows long_df).*1 = seq 0 (len long_df)
    ∧ disk w' !! "taiwan_stocks_long_format.csv" = Some (csv_of long_df)
    ∧ (∀ path, path ≠ "taiwan_stocks_long_format.csv" → disk w' !! path = disk w !! path)
    ∧ console w' = console w ++
        [ Found (length (data df)) (length stock_cols);
          Removed (len melted - len (sentinel_filter melted));
          Complete (len (sentinel_filter melted));
          Saving "taiwan_stocks_long_format.csv" ].
Proof.
  intros Hdisk Hread Hroles Hrange Hlabels Hopen melted long_df Hsummary.
  rewrite (convert_wide_to_long_csv_run file_path w c df date_col stock_cols)
    by (done || by apply melt_ok).
  fold melted long_df. rewrite Hsummary.
  eexists. split; [done|]. cbn [disk console].
  split; [apply records_reset_index|].
  split; [unfold long_df; rewrite index_reset_index; by rewrite !len_reset_index|].
  split; [by rewrite lookup_insert_eq|].
  split; [intros path Hne; by rewrite lookup_insert_ne|].
  unfold long_df. by rewrite len_reset_index.
Qed.

(** X4.  A missing file, a file the reader rejects, a sheet without
    columns and an identifier column whose range cannot be printed each
    make the general pipeline raise that very error before anything is
    written: the disk is left as it was. *)
Theorem early_failures_write_nothing (V : Values) (F : Files)
    (file_path output_suffix value_column_name : string) (w : world) :
  let run := convert_stock_file_to_long file_path output_suffix value_column_name w in
  (disk w !! file_path = None → run = (inl (FileNotFoundError file_path), w))
  ∧ (∀ c e, disk w !! file_path = Some c → read_sheet c = inl e → run = (inl e, w))
  ∧ (∀ c df, disk w !! file_path = Some c → read_sheet c = inr df → columns df = [] →
             run = (inl IndexError, w))
  ∧ (∀ c df date_col stock_cols e,
       disk w !! file_path = Some c → read_sheet c = inr df →
       column_roles (columns df) = inr (date_col, stock_cols) →
       min_max (column_0 df) = Some e →
       run.1 = inl e ∧ disk run.2 = disk w).
Proof.
  intros run. subst run. unfold convert_stock_file_to_long.
  unfold mbind, M_bind, read_excel, lift.
  split; [by intros ->|]. split; [by intros c e -> ->|].
  split; [by intros c df -> -> ->|].
  intros c df date_col stock_cols e Hdisk Hread Hroles Hrange.
  rewrite Hdisk, Hread, Hroles.
  split; unfold print at 1; unfold print_range at 1; by rewrite Hrange.
Qed.

Section output_invariants.
Context `{V : Values}.

Lemma elem_of_melt_records df date_col stock_cols name (r : LongRecord) :
  r ∈ records (melt_frame df date_col stock_cols name) →
  Stock r ∈ stock_cols ∧ ∃ row, row ∈ data df ∧ Date r = nth 0 row NA.
Proof.
  rewrite records_melt. rewrite list_elem_of_In, in_concat.
  intros (col & Hcol & Hr). apply list_elem_of_In in Hcol, Hr.
  apply elem_of_lookup_imap in Hcol as (j & label & -> & Hlabel).
  unfold melt_column in Hr. apply list_elem_of_fmap in Hr as (row & -> & Hrow).
  simpl. split; [by eapply list_elem_of_lookup_2|]. by exists row.
Qed.

(** A row of the cleaned table comes from a row of the table before, with
    the same identifier and stock, and is not null if that one was not. *)
Lemma clean_numeric_from_rows (dt : dtype) (long_df : LongFrame) r' :
  r' ∈ lrows (clean_numeric dt long_df) →
  ∃ r, r ∈ lrows long_df
       ∧ Date r'.2 = Date r.2 ∧ Stock r'.2 = Stock r.2
       ∧ (Value r.2 ≠ NA → Value r'.2 ≠ NA).
Proof.
  destruct (dtype_eqb dt object) eqn:E.
  - assert (dt = object) as -> by (by destruct dt).
    rewrite clean_numeric_object. destruct (exceeds_threshold _ _); cbn [lrows with_rows].
    + intros (r & v & Hin & _ & ->)%elem_of_committed. exists r. by repeat split.
    + intros (r & -> & Hin)%list_elem_of_fmap. exists r. by repeat split.
  - unfold clean_numeric. rewrite E. intros Hin. exists r'. by repeat split.
Qed.

Lemma general_long_rows df date_col stock_cols name (r : LongRecord) :
  r ∈ records (general_long df date_col stock_cols name) →
  Value r ≠ NA ∧ Stock r ∈ stock_cols ∧ ∃ row, row ∈ data df ∧ Date r = nth 0 row NA.
Proof.
  unfold general_long. rewrite records_reset_index.
  intros ([i r'] & -> & Hin)%list_elem_of_fmap.
  apply clean_numeric_from_rows in Hin as ([i0 r0] & Hin & HD & HS & HV).
  apply elem_of_sentinel_filter in Hin as (Hin & Hna & _).
  simpl in *. rewrite HD, HS.
  assert (Hrec : r0 ∈ records (melt_frame df date_col stock_cols name)).
  { unfold unpivot, rename_date in Hin. cbn [lrows] in Hin.
    apply list_elem_of_fmap. by exists (i0, r0). }
  apply elem_of_melt_records in Hrec as [? ?]. split; [by apply HV|done].
Qed.

Lemma len_melt df date_col stock_cols name :
  len (melt_frame df date_col stock_cols name) = length (data df) * length stock_cols.
Proof.
  rewrite len_records, records_melt.
  rewrite (length_concat_imap _ _ (length (data df))); [lia|].
  intros. apply length_melt_column.
Qed.

End output_invariants.

Section converters_more.
Context `{F : Files}.

Lemma names_clean_numeric (dt : dtype) (long_df : LongFrame) :
  id_name (clean_numeric dt long_df) = id_name long_df
  ∧ value_name (clean_numeric dt long_df) = value_name long_df.
Proof.
  destruct (dtype_eqb dt object) eqn:E.
  - assert (dt = object) as -> by (by destruct dt).
    rewrite clean_numeric_object. by destruct (exceeds_threshold _ _).
  - unfold clean_numeric. by rewrite E.
Qed.

Lemma clean_numeric_not_object (dt : dtype) (long_df : LongFrame) :
  dt ≠ object → clean_numeric dt long_df = long_df.
Proof. intros Hne. unfold clean_numeric. by destruct dt. Qed.

Lemma convert_wide_to_long_csv_result (file_path : string) (w : world) :
  (convert_wide_to_long_csv file_path w).1
  = match disk w !! file_path with
    | None => inl (FileNotFoundError file_path)
    | Some c =>
        match read_sheet c with
        | inl e => inl e
        | inr df =>
            match column_roles (columns df) with
            | inl e => inl e
            | inr (date_col, stock_cols) =>
                match min_max (column_0 df) with
                | Some e => inl e
                | None =>
                    match melt df date_col stock_cols "Price" with
                    | inl e => inl e
                    | inr _ =>
                        let long_df :=
                          reset_index
                            (sentinel_filter (unpivot df date_col stock_cols "Price")) in
                        match open_error "taiwan_stocks_long_format.csv" with
                        | Some e => inl e
                        | None =>
                            match min_max (Date <$> records long_df) with
                            | Some e => inl e
                            | None => inr long_df
                            end
                        end
                    end
                end
            end
        end
    end.
Proof.
  unfold convert_wide_to_long_csv.
  unfold mbind, M_bind, read_excel, lift, print_range, print, to_csv.
  destruct (disk w !! file_path) as [c|]; [|done].
  destruct (read_sheet c) as [e|df]; [done|].
  destruct (column_roles (columns df)) as [e|[date_col stock_cols]]; [done|].
  destruct (min_max (column_0 df)) as [e|]; [done|].
  destruct (melt df date_col stock_cols "Price") as [e|m] eqn:Hmelt; [done|].
  apply melt_inr in Hmelt as ->.
  cbn [fst snd disk console].
  change (drop_eq EmptyString (drop_eq "-" (dropna ?x))) with (sentinel_filter x).
  fold (unpivot df date_col stock_cols "Price").
  destruct (open_error _); [done|].
  by destruct (min_max (Date <$> records _)).
Qed.

(** The disk after the general pipeline, as a function of the bytes read. *)
Lemma convert_stock_file_to_long_disk (file_path output_suffix value_column_name : string) :
  ∃ written : content → option content,
    ∀ w, disk (convert_stock_file_to_long file_path output_suffix value_column_name w).2
         = match disk w !! file_path ≫= written with
           | Some csv => <[csv_name file_path output_suffix := csv]> (disk w)
           | None => disk w
           end.
Proof.
  exists (λ c,
    match read_sheet c with
    | inl _ => None
    | inr df =>
        match column_roles (columns df) with
        | inl _ => None
        | inr (date_col, stock_cols) =>
            match min_max (column_0 df) with
            | Some _ => None
            | None =>
                match melt df date_col stock_cols value_column_name with
                | inl _ => None
                | inr _ =>
                    match open_error (csv_name file_path output_suffix) with
                    | Some _ => None
                    | None =>
                        Some (csv_of (general_long df date_col stock_cols value_column_name))
                    end
                end
            end
        end
    end).
  intros w. unfold convert_stock_file_to_long.
  unfold mbind at 1 2 3 4 5 6 7 8 9, M_bind, read_excel, lift, print_range, print, to_csv.
  destruct (disk w !! file_path) as [c|]; [|done]. simpl.
  destruct (read_sheet c) as [e|df]; [done|].
  destruct (column_roles (columns df)) as [e|[date_col stock_cols]]; [done|].
  destruct (min_max (column_0 df)) as [e|]; [done|].
  destruct (melt df date_col stock_cols value_column_name) as [e|m] eqn:Hmelt; [done|].
  apply melt_inr in Hmelt as ->.
  unfold mret, M_ret, raise. destruct (open_error _); [done|].
  cbn [fst snd disk console].
  change (drop_eq EmptyString (drop_eq "-" (dropna ?x))) with (sentinel_filter x).
  fold (unpivot df date_col stock_cols value_column_name).
  fold (general_long df date_col stock_cols value_column_name).
  by destruct (min_max (Date <$> records _)).
Qed.

End converters_more.

(** X5.  When nothing stops the general pipeline (the sheet is read, the
    melt accepts its labels, the output can be opened and the two ranges
    are printed) what it returns is also what it saved under the computed
    name: a table whose identifier column is [Date], labelled 0, 1, ...,
    with no more rows than the sheet has cells in its value columns, in
    which no value is null and every record carries the label of one of
    the value columns and an identifier found in column 0. *)
Theorem general_pipeline_output (V : Values) (F : Files)
    (file_path output_suffix value_column_name : string) (w : world) c df date_col stock_cols :
  disk w !! file_path = Some c →
  read_sheet c = inr df →
  column_roles (columns df) = inr (date_col, stock_cols) →
  min_max (column_0 df) = None →
  melt_labels_ok date_col stock_cols value_column_name = true →
  open_error (csv_name file_path output_suffix) = None →
  let long_df := general_long df date_col stock_cols value_column_name in
  min_max (Date <$> records long_df) = None →
  ∃ w',
    convert_stock_file_to_long file_path output_suffix value_column_name w
    = (inr (long_df, csv_name file_path output_suffix), w')
    ∧ disk w' !! csv_name file_path output_suffix = Some (csv_of long_df)
    ∧ id_name long_df = Str "Date"
    ∧ value_name long_df = value_column_name
    ∧ (lrows long_df).*1 = seq 0 (len long_df)
    ∧ len long_df ≤ length (data df) * length stock_cols
    ∧ ∀ r, r ∈ records long_df →
        Value r ≠ NA ∧ Stock r ∈ stock_cols ∧ ∃ row, row ∈ data df ∧ Date r = nth 0 row NA.
Proof.
  intros Hdisk Hread Hroles Hrange Hlabels Hopen long_df Hsummary.
  rewrite (convert_stock_file_to_long_run _ _ _ w c df date_col stock_cols)
    by (done || by apply melt_ok).
  fold long_df. rewrite Hopen, Hsummary. eexists. split; [done|]. cbn [disk].
  split; [by rewrite lookup_insert_eq|].
  unfold long_df, general_long.
  destruct (names_clean_numeric (melt_dtype df)
              (sentinel_filter (unpivot df date_col stock_cols value_column_name)))
    as [Hid Hname].
  split; [cbn [reset_index with_rows id_name]; rewrite Hid; by rewrite sentinel_filter_unfold|].
  split; [cbn [reset_index with_rows value_name]; rewrite Hname;
          by rewrite sentinel_filter_unfold|].
  split; [rewrite index_reset_index; by rewrite len_reset_index|].
  split.
  - rewrite len_reset_index.
    etrans; [apply len_clean_numeric_le|]. etrans; [apply len_sentinel_filter_le|].
    unfold unpivot, rename_date, len. cbn [lrows].
    fold (len (melt_frame df date_col stock_cols value_column_name)). by rewrite len_melt.
  - apply general_long_rows.
Qed.

(** X6.  On a sheet whose value columns are not stored as text, and
    when the two output paths can be opened alike (both can, or both fail
    with the same error), the general pipeline, asked for a [Price]
    column, and the single-file converter return the same table or fail
    with the same error. *)
Theorem numeric_sheet_converters_agree (V : Values) (F : Files)
    (file_path output_suffix : string) (w : world) :
  (∀ c df, disk w !! file_path = Some c → read_sheet c = inr df → melt_dtype df ≠ object) →
  open_error (csv_name file_path output_suffix) = open_error "taiwan_stocks_long_format.csv" →
  (convert_stock_file_to_long file_path output_suffix "Price" w).1
  = match (convert_wide_to_long_csv file_path w).1 with
    | inl e => inl e
    | inr long_df => inr (long_df, csv_name file_path output_suffix)
    end.
Proof.
  intros Hnum Hopen.
  rewrite convert_stock_file_to_long_result, convert_wide_to_long_csv_result.
  destruct (disk w !! file_path) as [c|]; [|done]. unfold convert_content.
  destruct (read_sheet c) as [e|df] eqn:Hread; [done|].
  specialize (Hnum c df eq_refl Hread).
  destruct (column_roles (columns df)) as [e|[date_col stock_cols]]; [done|].
  destruct (min_max (column_0 df)) as [e|]; [done|].
  destruct (melt df date_col stock_cols "Price") as [e|m]; [done|].
  cbv zeta. unfold general_long. rewrite clean_numeric_not_object by done.
  rewrite Hopen. destruct (open_error "taiwan_stocks_long_format.csv"); [done|].
  by destruct (min_max (Date <$> records _)).
Qed.

(** X7.  With a suffix free of [/], converting the same file a second
    time returns what the first run returned and leaves the disk as the
    first run left it: the earlier output is overwritten by an equal one. *)
Theorem rerun_overwrites_with_same (V : Values) (F : Files)
    (file_path output_suffix value_column_name : string) (w : world) :
  has_char "/" output_suffix = false →
  let first := convert_stock_file_to_long file_path output_suffix value_column_name w in
  let second :=
    convert_stock_file_to_long file_path output_suffix value_column_name first.2 in
  second.1 = first.1 ∧ disk second.2 = disk first.2.
Proof.
  intros Hsuffix first second. subst second first. cbn zeta.
  set (w1 := (convert_stock_file_to_long file_path output_suffix value_column_name w).2).
  assert (Hne : file_path ≠ csv_name file_path output_suffix).
  { intros Heq. by apply (csv_name_ne_file file_path output_suffix). }
  assert (Hsame : disk w1 !! file_path = disk w !! file_path).
  { by apply convert_stock_file_to_long_frame. }
  split.
  - by rewrite !convert_stock_file_to_long_result, Hsame.
  - destruct (convert_stock_file_to_long_disk file_path output_suffix value_column_name)
      as [written Hwritten].
    rewrite Hwritten, Hsame. unfold w1. rewrite Hwritten.
    destruct (disk w !! file_path ≫= written); [|done].
    by rewrite insert_insert_eq.
Qed.

(** ** More on the batch driver *)

Section batch_more.
Context `{F : Files}.

Lemma convert_all_stock_files_disk (configs : list file_config) (w : world) :
  disk (convert_all_stock_files configs w).2 = disk (convert_each configs [] w).2.
Proof.
  destruct (convert_each_spec configs [] w) as (results & Hrun & _).
  unfold convert_all_stock_files. unfold mbind at 1, M_bind at 1.
  destruct (convert_each configs [] w) as [r w1]. simpl in Hrun. subst r.
  unfold mbind at 1, M_bind at 1.
  destruct (report_each_spec results 0 0 w1) as [lines ->]. done.
Qed.

Lemma expected_result_invariant (config : file_config) (w : world) :
  let r := expected_result config w in
  original_file r = file config
  ∧ (success r = true ↔ is_Some (output_file r))
  ∧ (success r = false → rows r = 0)
  ∧ (is_Some (error r) → success r = false).
Proof.
  unfold expected_result. destruct (disk w !! file config).
  - destruct (convert_stock_file_to_long _ _ _ w).1 as [e|[df filename]]; simpl;
      repeat split; try done; try (by intros [? ?]); try (by eexists).
  - simpl. repeat split; try done; by intros [? ?].
Qed.

Lemma convert_success_writes (file_path output_suffix value_column_name : string)
    (w : world) long_df name :
  (convert_stock_file_to_long file_path output_suffix value_column_name w).1
  = inr (long_df, name) →
  name = csv_name file_path output_suffix
  ∧ disk (convert_stock_file_to_long file_path output_suffix value_column_name w).2 !! name
    = Some (csv_of long_df).
Proof.
  unfold convert_stock_file_to_long.
  unfold mbind, M_bind, read_excel, lift, print_range, print, to_csv.
  destruct (disk w !! file_path) as [c|]; [|done].
  destruct (read_sheet c) as [e|df]; [done|].
  destruct (column_roles (columns df)) as [e|[date_col stock_cols]]; [done|].
  destruct (min_max (column_0 df)) as [e|]; [done|].
  destruct (melt df date_col stock_cols value_column_name) as [e|m]; [done|].
  unfold mret, M_ret, raise. destruct (open_error _); [done|].
  cbn [fst snd disk console].
  destruct (min_max (Date <$> records _)); cbn [fst snd disk console]; [done|].
  intros [= <- <-]. split; [done|]. by rewrite lookup_insert_eq.
Qed.

Lemma convert_one_writes (config : file_config) (w : world) :
  success (expected_result config w) = true →
  ∃ long_df,
    expected_result config w
    = success_result config (len long_df) (csv_name (file config) (suffix config))
    ∧ disk (convert_one config w).2 !! csv_name (file config) (suffix config)
      = Some (csv_of long_df).
Proof.
  unfold expected_result, convert_one, try_except, exists_.
  unfold mbind at 1, M_bind at 1.
  destruct (disk w !! file config) as [c|] eqn:Hdisk; [|done].
  rewrite bool_decide_eq_true_2 by eauto.
  pose proof (convert_success_writes (file config) (suffix config) (config_value_name config) w)
    as Hwrites.
  unfold mbind, M_bind.
  destruct (convert_stock_file_to_long _ _ _ w) as [[e|[long_df name]] w1]; [done|].
  intros _. destruct (Hwrites long_df name eq_refl) as [-> Hw]. by exists long_df.
Qed.

Lemma convert_each_app_world (l1 l2 : list file_config) results results' (w : world) :
  (convert_each (l1 ++ l2) results w).2
  = (convert_each l2 results' (convert_each l1 results w).2).2.
Proof.
  revert results w. induction l1 as [|config l1 IH]; intros results w.
  - simpl. apply convert_each_world.
  - change ((config :: l1) ++ l2) with (config :: (l1 ++ l2)).
    rewrite !convert_each_cons. apply IH.
Qed.

End batch_more.

(** X8.  The batch driver changes no file other than the outputs it
    computes from its list; with the five configured files it therefore
    leaves every input as it found it. *)
Theorem batch_touches_only_outputs (V : Values) (F : Files)
    (configs : list file_config) (w : world) (path : string) :
  Forall (λ config, path ≠ csv_name (file config) (suffix config)) configs →
  disk (convert_all_stock_files configs w).2 !! path = disk w !! path
  ∧ ∀ config, config ∈ files_config →
      disk (convert_all_stock_files files_config w).2 !! file config = disk w !! file config.
Proof.
  intros Hall. split.
  - rewrite convert_all_stock_files_disk. by apply convert_each_frame.
  - intros config Hin. rewrite convert_all_stock_files_disk.
    apply convert_each_frame. apply Forall_forall. intros config' Hin'.
    by apply (no_clobber_spec files_config).
Qed.

(** X9.  In what the batch driver returns, the results name the
    configured files in order, a result is a success exactly when it names
    an output file, a failure has no rows, and a result carrying an error
    text is a failure; the reported total is thus the sum of the rows of
    all results. *)
Theorem batch_results_are_consistent (V : Values) (F : Files)
    (configs : list file_config) (w : world) :
  ∃ results w',
    convert_all_stock_files configs w = (inr results, w')
    ∧ original_file <$> results = file <$> configs
    ∧ Forall (λ r, (success r = true ↔ is_Some (output_file r))
                   ∧ (success r = false → rows r = 0)
                   ∧ (is_Some (error r) → success r = false)) results
    ∧ total_rows_of results = sum_list (rows <$> results)
    ∧ successful_count results ≤ length configs.
Proof.
  destruct (convert_all_stock_files_spec configs w)
    as (results & w' & Hrun & Hlen & Hres & _).
  exists results, w'. split; [done|].
  assert (Hall : ∀ i r, results !! i = Some r →
            ∃ config, configs !! i = Some config
                      ∧ r = expected_result config (world_before configs w i)).
  { intros i r Hi.
    destruct (lookup_lt_is_Some_2 configs i) as [config Hc].
    { rewrite <- Hlen. by eapply lookup_lt_Some. }
    exists config. split; [done|]. specialize (Hres i config Hc). congruence. }
  assert (Hinv : Forall (λ r, (success r = true ↔ is_Some (output_file r))
                   ∧ (success r = false → rows r = 0)
                   ∧ (is_Some (error r) → success r = false)) results).
  { apply Forall_lookup. intros i r Hi.
    destruct (Hall i r Hi) as (config & _ & ->).
    by destruct (expected_result_invariant config (world_before configs w i)) as (_ & ? & ? & ?). }
  split; [|split; [done|split]].
  - apply list_eq. intros i. rewrite !list_lookup_fmap.
    destruct (results !! i) as [r|] eqn:Hi; simpl.
    + destruct (Hall i r Hi) as (config & Hc & ->). rewrite Hc. simpl. f_equal.
      by destruct (expected_result_invariant config (world_before configs w i)) as (? & _).
    + apply lookup_ge_None in Hi. rewrite Hlen in Hi.
      apply lookup_ge_None in Hi. by rewrite Hi.
  - unfold total_rows_of. clear -Hinv.
    induction Hinv as [|r rest (_ & Hzero & _) _ IH]; [done|].
    rewrite filter_cons, fmap_cons.
    change (sum_list (rows r :: (rows <$> rest))) with (rows r + sum_list (rows <$> rest)).
    destruct (success r) eqn:Hs.
    + rewrite fmap_cons.
      change (sum_list (rows r :: ?l)) with (rows r + sum_list l). by rewrite IH.
    + rewrite Hzero by done. by rewrite IH.
  - unfold successful_count. rewrite <- Hlen. apply length_filter_le.
Qed.

(** X10.  When the output names of the list are pairwise distinct, as
    they are for the five configured files, every success recorded by the
    batch driver names a file that is on disk when the batch ends and
    holds a table of as many rows as the result reports. *)
Theorem batch_outputs_are_on_disk (V : Values) (F : Files)
    (configs : list file_config) (w : world) :
  distinct_outputs configs = true →
  distinct_outputs files_config = true
  ∧ ∃ results w',
      convert_all_stock_files configs w = (inr results, w')
      ∧ ∀ r, r ∈ results → success r = true →
          ∃ name long_df,
            output_file r = Some name
            ∧ rows r = len long_df
            ∧ disk w' !! name = Some (csv_of long_df).
Proof.
  intros Hdistinct. split; [reflexivity|].
  apply bool_decide_eq_true in Hdistinct.
  destruct (convert_all_stock_files_spec configs w)
    as (results & w' & Hrun & Hlen & Hres & _).
  exists results, w'. split; [done|].
  intros r [i Hi]%list_elem_of_lookup Hsuccess.
  destruct (lookup_lt_is_Some_2 configs i) as [config Hc].
  { rewrite <- Hlen. by eapply lookup_lt_Some. }
  rewrite (Hres i config Hc) in Hi. injection Hi as <-.
  set (wi := world_before configs w i) in *.
  destruct (convert_one_writes config wi Hsuccess) as (long_df & Heq & Hdisk).
  exists (csv_name (file config) (suffix config)), long_df.
  rewrite Heq. split; [done|]. split; [done|].
  replace w' with (convert_all_stock_files configs w).2 by (by rewrite Hrun).
  rewrite convert_all_stock_files_disk.
  rewrite <- (take_drop_middle configs i config Hc).
  rewrite (convert_each_app_world _ _ [] []). fold (world_before configs w i). fold wi.
  rewrite convert_each_cons, convert_each_frame; [done|].
  apply Forall_lookup. intros j config' Hj Hsame.
  rewrite lookup_drop in Hj.
  assert (i = S i + j); [|lia].
  eapply (NoDup_lookup _ _ _ _ Hdistinct); rewrite list_lookup_fmap.
  - by rewrite Hc.
  - rewrite Hj. simpl. by rewrite Hsame.
Qed.

(** ** More on the quarterly fixer *)

Section quarterly_more.
Context `{F : Files}.

Lemma fix_quarterly_data_files_returns (w : world) :
  (fix_quarterly_data_files w).1 = inr ().
Proof.
  unfold fix_quarterly_data_files. unfold mbind at 1, M_bind at 1.
  rewrite try_except_print_total. by rewrite try_except_print_total.
Qed.

Lemma fix_book_values_console (w : world) (handler : exception → line) :
  ∃ later, console (try_except fix_book_values (λ e, print (handler e)) w).2
           = console w ++ later.
Proof.
  unfold try_except, fix_book_values.
  unfold mbind, M_bind, read_excel, lift, print, to_csv.
  destruct (disk w !! "book value.xlsx") as [c|]; [|by eexists].
  destruct (read_sheet c) as [e|df]; [by eexists|].
  destruct (promote_header df) as [e|data_rows]; [by eexists|].
  destruct (column_roles (columns data_rows)) as [e|[date_col stock_cols]];
    [cbn [fst snd disk console]; rewrite <- ?(assoc_L (++)); by eexists|].
  destruct (melt data_rows date_col stock_cols "BookValue") as [e|m];
    [cbn [fst snd disk console]; rewrite <- ?(assoc_L (++)); by eexists|].
  destruct (open_error "book_values_fixed.csv");
    cbn [fst snd disk console]; rewrite <- ?(assoc_L (++)); by eexists.
Qed.

Lemma fix_quarterly_data_files_after (w w1 : world) :
  try_except fix_announcement_dates
    (λ e, print (ErrorFixing "announcement dates" (str_of_exception e))) w = (inr (), w1) →
  fix_quarterly_data_files w
  = try_except fix_book_values
      (λ e, print (ErrorFixing "book values" (str_of_exception e))) w1.
Proof.
  intros Hfirst. unfold fix_quarterly_data_files.
  unfold mbind at 1, M_bind at 1. by rewrite Hfirst.
Qed.

Lemma promote_header_no_rows (df : DataFrame) :
  data df = [] → promote_header df = inl IlocIndexError.
Proof. unfold promote_header. by intros ->. Qed.

Lemma melt_no_rows (df : DataFrame) date_col stock_cols name :
  data df = [] → lrows (melt_frame df date_col stock_cols name) = [].
Proof.
  intros Hdata. unfold melt_frame. cbn [lrows].
  assert (concat (imap (melt_column df) stock_cols) = []) as ->; [|done].
  unfold melt_column. rewrite Hdata. clear.
  generalize 0. induction stock_cols as [|label rest IH]; intros k; [done|].
  simpl. apply (IH (S k)).
Qed.

Lemma melt_lookup (df : DataFrame) date_col stock_cols name i j row label :
  data df !! i = Some row → stock_cols !! j = Some label →
  records (melt_frame df date_col stock_cols name) !! (j * length (data df) + i)
  = Some {| Date := nth 0 row NA; Stock := label; Value := nth (S j) row NA |}.
Proof.
  intros Hrow Hlabel. rewrite records_melt.
  rewrite (lookup_concat_imap _ _ (length (data df)) j i label);
    [|intros; apply length_melt_column|done|by eapply lookup_lt_Some].
  unfold melt_column. by rewrite list_lookup_fmap, Hrow.
Qed.

End quarterly_more.

(** X11.  [fix_quarterly_data_files] never raises and changes no file
    other than its two outputs. *)
Theorem fix_quarterly_only_writes_its_outputs (V : Values) (F : Files) (w : world) :
  (fix_quarterly_data_files w).1 = inr ()
  ∧ ∀ path, path ≠ "announcement_dates_fixed.csv" → path ≠ "book_values_fixed.csv" →
      disk (fix_quarterly_data_files w).2 !! path = disk w !! path.
Proof.
  split; [apply fix_quarterly_data_files_returns|].
  intros path Ha Hb. rewrite fix_quarterly_data_files_world.
  rewrite fix_book_values_frame by done. by apply fix_announcement_dates_frame.
Qed.

(** X12.  When the announcement-date workbook is missing, or its sheet
    has no row, the first block writes nothing and prints the text of that
    error: for the missing workbook the [FileNotFoundError] of its path,
    which reads [[Errno 2] No such file or directory:
    'announcemnet date.xlsx'], for the empty sheet the [IndexError] of
    [iloc[0]].  The book-value block then runs as it does from that disk
    with the error line printed, so that [announcement_dates_fixed.csv] is
    as it was. *)
Theorem announcement_failure_writes_nothing (V : Values) (F : Files) (w : world) :
  let handler := λ e, print (ErrorFixing "book values" (str_of_exception e)) in
  let failed e :=
    {| disk := disk w;
       console := console w ++ [ErrorFixing "announcement dates" (str_of_exception e)] |} in
  str_of_exception (FileNotFoundError "announcemnet date.xlsx")
  = "[Errno 2] No such file or directory: 'announcemnet date.xlsx'"
  ∧ str_of_exception IlocIndexError = "single positional indexer is out-of-bounds"
  ∧ (disk w !! "announcemnet date.xlsx" = None →
     fix_quarterly_data_files w
     = try_except fix_book_values handler (failed (FileNotFoundError "announcemnet date.xlsx"))
     ∧ disk (fix_quarterly_data_files w).2 !! "announcement_dates_fixed.csv"
       = disk w !! "announcement_dates_fixed.csv")
  ∧ (∀ c df, disk w !! "announcemnet date.xlsx" = Some c → read_sheet c = inr df →
       data df = [] →
       fix_quarterly_data_files w = try_except fix_book_values handler (failed IlocIndexError)
       ∧ disk (fix_quarterly_data_files w).2 !! "announcement_dates_fixed.csv"
         = disk w !! "announcement_dates_fixed.csv").
Proof.
  intros handler failed.
  split; [reflexivity|]. split; [reflexivity|].
  assert (Hframe : ∀ e w1,
            w1 = failed e →
            fix_quarterly_data_files w = try_except fix_book_values handler w1 →
            disk (fix_quarterly_data_files w).2 !! "announcement_dates_fixed.csv"
            = disk w !! "announcement_dates_fixed.csv").
  { intros e w1 -> ->. unfold handler. by rewrite fix_book_values_frame. }
  split.
  - intros Hdisk.
    assert (Hrun : fix_quarterly_data_files w
              = try_except fix_book_values handler
                  (failed (FileNotFoundError "announcemnet date.xlsx"))).
    { apply fix_quarterly_data_files_after.
      unfold try_except, fix_announcement_dates, mbind, M_bind, read_excel.
      by rewrite Hdisk. }
    split; [done|]. by eapply Hframe.
  - intros c df Hdisk Hread Hdata.
    assert (Hrun : fix_quarterly_data_files w
              = try_except fix_book_values handler (failed IlocIndexError)).
    { apply fix_quarterly_data_files_after.
      unfold try_except, fix_announcement_dates, mbind, M_bind, read_excel, lift.
      by rewrite Hdisk, Hread, (promote_header_no_rows df Hdata). }
    split; [done|]. by eapply Hframe.
Qed.

(** X13.  A quarterly sheet that holds its header row and nothing else is
    not an error: when the melt accepts the labels of that row and the
    output can be opened, each block saves a table without rows. *)
Theorem header_only_sheet_gives_empty_output (V : Values) (F : Files) (w : world) :
  (∀ c df date_col stock_cols,
      disk w !! "announcemnet date.xlsx" = Some c → read_sheet c = inr df →
      data df = [date_col :: stock_cols] →
      melt_labels_ok date_col stock_cols "AnnouncementDate" = true →
      open_error "announcement_dates_fixed.csv" = None →
      disk (fix_quarterly_data_files w).2 !! "announcement_dates_fixed.csv"
      = Some (csv_of {| id_name := Str "Date"; value_name := "AnnouncementDate";
                        lrows := [] |}))
  ∧ (∀ c df date_col stock_cols,
      disk w !! "book value.xlsx" = Some c → read_sheet c = inr df →
      data df = [date_col :: stock_cols] →
      melt_labels_ok date_col stock_cols "BookValue" = true →
      open_error "book_values_fixed.csv" = None →
      disk (fix_quarterly_data_files w).2 !! "book_values_fixed.csv"
      = Some (csv_of {| id_name := Str "Date"; value_name := "BookValue"; lrows := [] |})).
Proof.
  split; intros c df date_col stock_cols Hdisk Hread Hdata Hlabels Hopen.
  - assert (Hhead : promote_header df
                    = inr (set_columns (reset_row_index (iloc_from_1 df)) (date_col :: stock_cols))).
    { unfold promote_header. by rewrite Hdata. }
    rewrite fix_quarterly_data_files_world, fix_book_values_frame by done.
    unfold try_except.
    rewrite (fix_announcement_dates_run w c df _ date_col stock_cols Hdisk Hread Hhead eq_refl)
      by (done || by apply melt_ok).
    cbn [snd disk]. rewrite lookup_insert_eq. do 2 f_equal.
    rewrite sentinel_filter_unfold. unfold unpivot, rename_date, with_rows.
    cbn [id_name value_name lrows]. f_equal.
    rewrite melt_no_rows; [done|]. cbn [data set_columns reset_row_index iloc_from_1].
    by rewrite Hdata.
  - assert (Hhead : promote_header df
                    = inr (set_columns (reset_row_index (iloc_from_1 df)) (date_col :: stock_cols))).
    { unfold promote_header. by rewrite Hdata. }
    rewrite fix_quarterly_data_files_world.
    set (w1 := (try_except fix_announcement_dates _ w).2).
    assert (Hdisk1 : disk w1 !! "book value.xlsx" = Some c).
    { subst w1. by rewrite fix_announcement_dates_frame. }
    unfold try_except.
    rewrite (fix_book_values_run w1 c df _ date_col stock_cols Hdisk1 Hread Hhead eq_refl)
      by (done || by apply melt_ok).
    cbn [snd disk]. rewrite lookup_insert_eq. do 2 f_equal.
    rewrite clean_book_value_eq, sentinel_filter_unfold.
    unfold unpivot, rename_date, with_rows.
    cbn [id_name value_name lrows]. f_equal.
    rewrite melt_no_rows; [done|]. cbn [data set_columns reset_row_index iloc_from_1].
    by rewrite Hdata.
Qed.

(** X14.  After the header-offset correction of a sheet whose row 0 holds
    labels the melt accepts, the melt returns, and the record melted for
    data row [i] and value column [j] carries the label found in row 0 of
    the load at that column, the identifier of row [i + 1] and the cell of
    row [i + 1] at that column; row 0 itself gives no record. *)
Theorem header_labels_reach_the_records (V : Values) (df : DataFrame)
    (date_col : cell) (stock_cols : list cell) (value_column_name : string) :
  rectangular df →
  data df !! 0 = Some (date_col :: stock_cols) →
  melt_labels_ok date_col stock_cols value_column_name = true →
  ∃ data_rows melted,
    promote_header df = inr data_rows
    ∧ column_roles (columns data_rows) = inr (date_col, stock_cols)
    ∧ melt data_rows date_col stock_cols value_column_name = inr melted
    ∧ let long_df := rename_date melted in
      let R := length (data df) - 1 in
      let N := length (columns df) - 1 in
      len long_df = R * N
      ∧ ∀ i j, i < R → j < N →
          ∃ period label v,
            cell_at df (S i) 0 = Some period
            ∧ cell_at df 0 (S j) = Some label
            ∧ cell_at df (S i) (S j) = Some v
            ∧ records long_df !! (j * R + i)
              = Some {| Date := period; Stock := label; Value := v |}.
Proof.
  intros Hrect Hrow0 Hlabels.
  destruct (data df) as [|row0 rest] eqn:Hdata; [done|].
  injection Hrow0 as ->.
  pose proof (rect_rows df Hrect) as Hall. rewrite Hdata in Hall.
  apply Forall_cons in Hall as [Hlen0 Hall].
  simpl in Hlen0.
  exists (set_columns (reset_row_index (iloc_from_1 df)) (date_col :: stock_cols)),
    (melt_frame (set_columns (reset_row_index (iloc_from_1 df)) (date_col :: stock_cols))
       date_col stock_cols value_column_name).
  split; [unfold promote_header; by rewrite Hdata|]. split; [done|].
  split; [by apply melt_ok|].
  fold (unpivot (set_columns (reset_row_index (iloc_from_1 df)) (date_col :: stock_cols))
          date_col stock_cols value_column_name).
  intros long_df R N.
  assert (HR : R = length rest) by (unfold R; simpl; lia).
  assert (HN : N = length stock_cols) by (unfold N; lia).
  assert (Hrest : data (set_columns (reset_row_index (iloc_from_1 df)) (date_col :: stock_cols))
                  = rest).
  { cbn [data set_columns reset_row_index iloc_from_1]. rewrite Hdata. simpl. apply drop_0. }
  split.
  - unfold long_df, unpivot, rename_date, len. cbn [lrows].
    fold (len (melt_frame (set_columns (reset_row_index (iloc_from_1 df)) (date_col :: stock_cols))
                 date_col stock_cols value_column_name)).
    rewrite len_melt, Hrest. lia.
  - intros i j Hi Hj.
    destruct (lookup_lt_is_Some_2 rest i ltac:(lia)) as [row Hrow].
    destruct (lookup_lt_is_Some_2 stock_cols j ltac:(lia)) as [label Hlabel].
    rewrite Forall_lookup in Hall. specialize (Hall i row Hrow). simpl in Hall.
    destruct (lookup_lt_is_Some_2 row 0 ltac:(lia)) as [period Hperiod].
    destruct (lookup_lt_is_Some_2 row (S j) ltac:(lia)) as [v Hv].
    exists period, label, v. unfold cell_at. rewrite Hdata.
    change (((date_col :: stock_cols) :: rest) !! S i) with (rest !! i).
    rewrite Hrow. simpl.
    split; [done|]. split; [done|]. split; [done|].
    unfold long_df, unpivot, rename_date, records. cbn [lrows].
    fold (records (melt_frame (set_columns (reset_row_index (iloc_from_1 df)) (date_col :: stock_cols))
                     date_col stock_cols value_column_name)).
    rewrite HR. rewrite <- Hrest at 1.
    rewrite (melt_lookup _ _ _ _ i j row label); [|by rewrite Hrest|done].
    rewrite !nth_lookup, Hperiod, Hv. done.
Qed.

(** ** More on the coercion and the filter *)

Section coercion_more.
Context `{V : Values}.

Lemma filter_all {A} (f : A → bool) (l : list A) :
  List.filter f l = l ↔ ∀ x, x ∈ l → f x = true.
Proof.
  induction l as [|x l IH]; [by split; [intros _ ? ?%elem_of_nil|]|].
  rewrite filter_cons. split.
  - destruct (f x) eqn:E.
    + intros [= Hl]. intros y [->|Hy]%elem_of_cons; [done|]. by apply IH.
    + intros Heq. pose proof (length_filter_le f l) as Hle.
      rewrite Heq in Hle. simpl in Hle. lia.
  - intros Hall. rewrite (Hall x) by left. f_equal. apply IH.
    intros y Hy. apply Hall. by right.
Qed.

Lemma filter_none {A} (f : A → bool) (l : list A) :
  (∀ x, x ∈ l → f x = false) → List.filter f l = [].
Proof.
  induction l as [|x l IH]; [done|]. intros Hall.
  rewrite filter_cons, (Hall x) by left. apply IH. intros y Hy. apply Hall. by right.
Qed.

Lemma frame_eq_rows (long_df : LongFrame) rows :
  with_rows long_df rows = long_df ↔ rows = lrows long_df.
Proof. destruct long_df as [i n l]. unfold with_rows. simpl. split; congruence. Qed.

Lemma sentinel_fixpoint (long_df : LongFrame) :
  sentinel_filter long_df = long_df
  ↔ ∀ r, r ∈ lrows long_df → is_sentinel (Value r.2) = false.
Proof.
  rewrite sentinel_filter_unfold, frame_eq_rows, filter_all.
  split; intros H r Hr; specialize (H r Hr); by apply negb_true_iff.
Qed.

End coercion_more.

(** X15.  A non-empty text column in which every value denotes a number
    is always coerced, and loses no row; one in which no value does is
    never coerced and keeps every row as text. *)
Theorem uniform_columns (V : Values) (long_df : LongFrame) :
  (Z.of_nat (len long_df) < 2 ^ 50)%Z →
  (0 < len long_df →
   (∀ r, r ∈ lrows long_df → parseable r = true) →
   clean_numeric object long_df = with_rows long_df (omap coerced_row (lrows long_df))
   ∧ len (clean_numeric object long_df) = len long_df)
  ∧ ((∀ r, r ∈ lrows long_df → parseable r = false) →
     clean_numeric object long_df = with_rows long_df (text_row <$> lrows long_df)).
Proof.
  intros Hsize. rewrite clean_numeric_object. split.
  - intros Hpos Hall.
    assert (Hk : List.filter parseable (lrows long_df) = lrows long_df) by by apply filter_all.
    rewrite Hk. fold (len long_df).
    assert (exceeds_threshold (len long_df) (len long_df) = true) as ->.
    { apply Binary64Facts.exceeds_threshold_exact; [done|done|lia]. }
    split; [done|]. unfold len at 1. cbn [lrows with_rows].
    by rewrite length_omap_coerced, Hk.
  - intros Hnone. rewrite (filter_none parseable) by done.
    assert (exceeds_threshold (length (@nil (nat * LongRecord))) (len long_df) = false) as ->; [|done].
    apply not_true_is_false. intros E.
    apply Binary64Facts.exceeds_threshold_exact in E; simpl in *; lia.
Qed.

(** X16.  The table the cleaning steps produce holds no sentinel value
    when the column is not text or when the coercion commits.  When the
    coercion of a text column is abandoned it holds one exactly if some
    kept value is reduced to [-] or to the empty text by the removal of
    its commas. *)
Theorem sentinels_in_the_output (V : Values) (dt : dtype) (long_df : LongFrame) :
  let filtered := sentinel_filter long_df in
  let out := clean_numeric dt filtered in
  let commits :=
    exceeds_threshold (length (List.filter parseable (lrows filtered))) (len filtered) in
  (dt ≠ object → sentinel_filter out = out)
  ∧ (dt = object → commits = true → sentinel_filter out = out)
  ∧ (dt = object → commits = false →
     (sentinel_filter out = out
      ↔ ∀ r, r ∈ lrows filtered →
             clean_text (Value r.2) ≠ "-" ∧ clean_text (Value r.2) ≠ EmptyString)).
Proof.
  intros filtered out commits. split; [|split].
  - intros Hdt. unfold out. rewrite clean_numeric_not_object by done.
    apply sentinel_fixpoint. intros r Hr.
    apply elem_of_sentinel_filter in Hr as [_ Hr]. by apply not_sentinel_spec.
  - intros -> Hc. unfold out. rewrite clean_numeric_object. fold commits. rewrite Hc.
    apply sentinel_fixpoint. cbn [lrows with_rows].
    intros r (r0 & v & _ & _ & ->)%elem_of_committed. done.
  - intros -> Hc. unfold out. rewrite clean_numeric_object. fold commits. rewrite Hc.
    rewrite sentinel_fixpoint. cbn [lrows with_rows]. split.
    + intros Hall r Hr.
      specialize (Hall (text_row r) ltac:(by apply list_elem_of_fmap_2)).
      simpl in Hall. apply orb_false_iff in Hall as [H1 H2].
      by apply String.eqb_neq in H1, H2.
    + intros Hall r' (r & -> & Hr)%list_elem_of_fmap. specialize (Hall r Hr) as [H1 H2].
      simpl. apply orb_false_iff. by rewrite !String.eqb_neq.
Qed.

(** X17.  The three filtering statements can be run in any order: each
    of the six orders keeps the same rows. *)
Theorem filter_statements_commute (V : Values) (long_df : LongFrame) :
  let a := dropna in
  let b := drop_eq "-" in
  let c := drop_eq EmptyString in
  c (a (b long_df)) = sentinel_filter long_df
  ∧ b (c (a long_df)) = sentinel_filter long_df
  ∧ b (a (c long_df)) = sentinel_filter long_df
  ∧ a (c (b long_df)) = sentinel_filter long_df
  ∧ a (b (c long_df)) = sentinel_filter long_df.
Proof.
  intros a b c. unfold a, b, c, sentinel_filter, dropna, drop_eq, with_rows; simpl.
  repeat split; f_equal; rewrite !filter_fuse; apply filter_ext_all;
    intros r; destruct (Value r.2); simpl; try done;
    by destruct (String.eqb _ "-"), (String.eqb _ EmptyString).
Qed.

(** ** The verification helper after a batch *)

Section verification_more.
Context `{R : Reader}.

Lemma convert_one_missing (config : file_config) (w : world) :
  disk w !! file config = None → disk (convert_one config w).2 = disk w.
Proof.
  intros Hdisk. unfold convert_one, try_except, exists_.
  unfold mbind, M_bind, print, mret, M_ret. rewrite Hdisk.
  rewrite bool_decide_eq_false_2 by (by intros [? ?]). done.
Qed.

Lemma convert_success_names (file_path output_suffix value_column_name : string)
    (w : world) long_df name :
  (convert_stock_file_to_long file_path output_suffix value_column_name w).1
  = inr (long_df, name) →
  id_name long_df = Str "Date" ∧ value_name long_df = value_column_name.
Proof.
  rewrite convert_stock_file_to_long_result. unfold convert_content.
  destruct (disk w !! file_path) as [c|]; [|done].
  destruct (read_sheet c) as [e|df]; [done|].
  destruct (column_roles (columns df)) as [e|[date_col stock_cols]]; [done|].
  destruct (min_max (column_0 df)) as [e|]; [done|].
  destruct (melt df date_col stock_cols value_column_name) as [e|m]; [done|].
  cbv zeta. destruct (open_error _); [done|].
  destruct (min_max (Date <$> records _)); [done|].
  intros [= <- _]. unfold general_long.
  destruct (names_clean_numeric (melt_dtype df)
              (sentinel_filter (unpivot df date_col stock_cols value_column_name)))
    as [Hid Hvalue].
  unfold reset_index, with_rows. cbn [id_name value_name]. rewrite Hid, Hvalue. done.
Qed.

Lemma convert_one_writes_named (config : file_config) (w : world) :
  success (expected_result config w) = true →
  ∃ long_df,
    expected_result config w
    = success_result config (len long_df) (csv_name (file config) (suffix config))
    ∧ disk (convert_one config w).2 !! csv_name (file config) (suffix config)
      = Some (csv_of long_df)
    ∧ id_name long_df = Str "Date"
    ∧ value_name long_df = config_value_name config.
Proof.
  unfold expected_result, convert_one, try_except, exists_.
  unfold mbind at 1, M_bind at 1.
  destruct (disk w !! file config) as [c|] eqn:Hdisk; [|done].
  rewrite bool_decide_eq_true_2 by eauto.
  pose proof (convert_success_writes (file config) (suffix config) (config_value_name config) w)
    as Hwrites.
  pose proof (convert_success_names (file config) (suffix config) (config_value_name config) w)
    as Hnames.
  unfold mbind, M_bind.
  destruct (convert_stock_file_to_long _ _ _ w) as [[e|[long_df name]] w1]; [done|].
  intros _. destruct (Hwrites long_df name eq_refl) as [-> Hw].
  destruct (Hnames long_df _ eq_refl) as [Hid Hvalue]. by exists long_df.
Qed.

Lemma convert_all_stock_files_output (configs : list file_config) (w : world) i config :
  NoDup ((λ config, csv_name (file config) (suffix config)) <$> configs) →
  configs !! i = Some config →
  let name := csv_name (file config) (suffix config) in
  disk (convert_all_stock_files configs w).2 !! name
  = disk (convert_one config (world_before configs w i)).2 !! name
  ∧ disk (world_before configs w i) !! name = disk w !! name.
Proof.
  intros Hdistinct Hc name. split.
  - rewrite convert_all_stock_files_disk.
    rewrite <- (take_drop_middle configs i config Hc) at 1.
    rewrite (convert_each_app_world _ _ [] []). fold (world_before configs w i).
    rewrite convert_each_cons, convert_each_frame; [done|].
    apply Forall_lookup. intros j config' Hj Hsame.
    rewrite lookup_drop in Hj.
    assert (i = S i + j); [|lia].
    eapply (NoDup_lookup _ _ _ _ Hdistinct); rewrite list_lookup_fmap.
    + by rewrite Hc.
    + rewrite Hj. simpl. by rewrite <- Hsame.
  - unfold world_before. apply convert_each_frame.
    apply Forall_lookup. intros j config' Hj Hsame.
    apply lookup_take_Some in Hj as [Hj Hlt].
    assert (i = j); [|lia].
    eapply (NoDup_lookup _ _ _ _ Hdistinct); rewrite list_lookup_fmap.
    + by rewrite Hc.
    + rewrite Hj. simpl. by rewrite <- Hsame.
Qed.

Lemma check_file_table (w : world) (filename value_column_name : string) c df :
  disk w !! filename = Some c →
  read_csv_content c = inr df →
  columns df = [Str "Date"; Str "Stock"; Str value_column_name] →
  check_file w filename = table_report filename value_column_name df.
Proof.
  intros Hdisk Hread Hcolumns. unfold check_file, check_content, getitem.
  rewrite Hdisk, Hread, Hcolumns. reflexivity.
Qed.

Lemma check_file_absent (w : world) (filename : string) :
  disk w !! filename = None → check_file w filename = [CheckNotFound filename].
Proof. intros Hdisk. unfold check_file. by rewrite Hdisk. Qed.

End verification_more.

(** X18.  Run after a batch in which the trading-volume and the
    market-capitalisation files both converted, the verification helper
    finds the two files the batch wrote and prints no error line: for
    each it prints a row count equal to the count the batch reported for
    that file, and the columns Date, Stock and the configured value
    column.  [pd.read_csv] is only assumed to give back the header and
    one row per record of a table written with these column names. *)
Theorem verification_after_the_batch (V : Values) (F : Files) (R : Reader) (w : world)
    (tv_config cap_config : file_config) :
  files_config !! 1 = Some tv_config →
  files_config !! 2 = Some cap_config →
  (∀ long_df, id_name long_df = Str "Date" →
     value_name long_df ∈ ["Volume"; "MarketCap"] →
     ∃ df, read_csv_content (csv_of long_df) = inr df
           ∧ columns df = [Str "Date"; Str "Stock"; Str (value_name long_df)]
           ∧ length (data df) = len long_df) →
  success (expected_result tv_config w) = true →
  success (expected_result cap_config w) = true →
  ∃ results w' tv cap,
    convert_all_stock_files files_config w = (inr results, w')
    ∧ rows <$> results !! 1 = Some (length (data tv))
    ∧ rows <$> results !! 2 = Some (length (data cap))
    ∧ verify_daily_files w'
      = Verifying :: table_report "tv_volume_long_format.csv" "Volume" tv
                  ++ table_report "mkt cap_market_cap_long_format.csv" "MarketCap" cap.
Proof.
  intros Htv Hcap Hreader Hok_tv Hok_cap.
  injection Htv as <-. injection Hcap as <-.
  assert (Hdistinct : NoDup ((λ config, csv_name (file config) (suffix config))
                             <$> files_config)).
  { apply (bool_decide_eq_true_1 _). reflexivity. }
  destruct (convert_all_stock_files_spec files_config w)
    as (results & w' & Hrun & Hlen & Hres & _).
  assert (Hfile : ∀ i config, files_config !! i = Some config →
            success (expected_result config w) = true →
            config_value_name config ∈ ["Volume"; "MarketCap"] →
            ∃ df, rows <$> results !! i = Some (length (data df))
                  ∧ check_file w' (csv_name (file config) (suffix config))
                    = table_report (csv_name (file config) (suffix config))
                        (config_value_name config) df).
  { intros i config Hi Hok Hname.
    set (wi := world_before files_config w i).
    assert (Hin : config ∈ files_config) by (by eapply list_elem_of_lookup_2).
    assert (Hsame : expected_result config wi = expected_result config w).
    { apply expected_result_ext. by apply world_before_disk. }
    rewrite <- Hsame in Hok.
    destruct (convert_one_writes_named config wi Hok)
      as (long_df & Heq & Hdisk & Hid & Hvalue).
    destruct (Hreader long_df Hid) as (df & Hread & Hcolumns & Hrows).
    { by rewrite Hvalue. }
    exists df. split.
    - rewrite (Hres i config Hi). fold wi. rewrite Heq. simpl. by rewrite Hrows.
    - apply (check_file_table _ _ _ (csv_of long_df)); [|done|by rewrite Hcolumns, Hvalue].
      replace w' with (convert_all_stock_files files_config w).2 by (by rewrite Hrun).
      destruct (convert_all_stock_files_output files_config w i config Hdistinct Hi)
        as [-> _]. done. }
  destruct (Hfile 1 _ eq_refl Hok_tv) as (tv & Hrows_tv & Hcheck_tv).
  { simpl. set_solver. }
  destruct (Hfile 2 _ eq_refl Hok_cap) as (cap & Hrows_cap & Hcheck_cap).
  { simpl. set_solver. }
  exists results, w', tv, cap. split; [done|]. split; [done|]. split; [done|].
  unfold verify_daily_files, files_to_check.
  change (csv_name _ _) with "tv_volume_long_format.csv" in Hcheck_tv.
  change (csv_name _ _) with "mkt cap_market_cap_long_format.csv" in Hcheck_cap.
  simpl in Hcheck_tv, Hcheck_cap.
  cbn [mbind list_bind]. rewrite Hcheck_tv, Hcheck_cap. by rewrite app_nil_r.
Qed.

(** X19.  When the trading-volume file is missing at the time of the
    batch, the verification helper reports on whatever its output path
    held before the batch: a file left by an earlier run is checked as if
    it were fresh, and when there is none the helper prints the not-found
    line and goes on to the market-capitalisation file. *)
Theorem verification_of_a_missing_input (V : Values) (F : Files) (R : Reader) (w : world) :
  disk w !! "tv.xlsx" = None →
  let w' := (convert_all_stock_files files_config w).2 in
  check_file w' "tv_volume_long_format.csv" = check_file w "tv_volume_long_format.csv"
  ∧ (disk w !! "tv_volume_long_format.csv" = None →
     verify_daily_files w'
     = Verifying :: CheckNotFound "tv_volume_long_format.csv"
                 :: check_file w' "mkt cap_market_cap_long_format.csv").
Proof.
  intros Hmissing w'.
  assert (Hdistinct : NoDup ((λ config, csv_name (file config) (suffix config))
                             <$> files_config)).
  { apply (bool_decide_eq_true_1 _). reflexivity. }
  assert (Hdisk : disk w' !! "tv_volume_long_format.csv"
                  = disk w !! "tv_volume_long_format.csv").
  { destruct (convert_all_stock_files_output files_config w 1 _ Hdistinct eq_refl)
      as [Hfinal Hbefore].
    change (csv_name _ _) with "tv_volume_long_format.csv" in Hfinal, Hbefore.
    simpl in Hfinal, Hbefore. unfold w'. rewrite Hfinal, convert_one_missing; [done|].
    rewrite world_before_disk; [done|done|].
    by eapply (list_elem_of_lookup_2 _ 1). }
  split.
  - unfold check_file. by rewrite Hdisk.
  - intros Hnone. unfold verify_daily_files, files_to_check. cbn [mbind list_bind].
    rewrite (check_file_absent w') by (by rewrite Hdisk). by rewrite app_nil_r.
Qed.

(** X20.  The quarterly fixer and the batch driver write to disjoint
    paths: the fixer leaves the five outputs of the batch as they are,
    so that the verification helper run after it, as the script does,
    reports what it would have reported before; and the batch leaves the
    two fixed files as they are. *)
Theorem fixer_and_batch_are_disjoint (V : Values) (F : Files) (R : Reader) (w : world) :
  verify_daily_files (fix_quarterly_data_files w).2 = verify_daily_files w
  ∧ (∀ config, config ∈ files_config →
       disk (fix_quarterly_data_files w).2 !! csv_name (file config) (suffix config)
       = disk w !! csv_name (file config) (suffix config))
  ∧ (∀ path, path ∈ ["announcement_dates_fixed.csv"; "book_values_fixed.csv"] →
       disk (convert_all_stock_files files_config w).2 !! path = disk w !! path).
Proof.
  assert (Hframe : ∀ path, path ≠ "announcement_dates_fixed.csv" →
            path ≠ "book_values_fixed.csv" →
            disk (fix_quarterly_data_files w).2 !! path = disk w !! path).
  { intros path Ha Hb. rewrite fix_quarterly_data_files_world.
    rewrite fix_book_values_frame by done. by apply fix_announcement_dates_frame. }
  split; [|split].
  - unfold verify_daily_files, files_to_check, check_file. cbn [mbind list_bind].
    by rewrite !Hframe by done.
  - intros config Hin. apply Hframe; intros Heq; revert Heq;
      repeat (apply elem_of_cons in Hin as [->|Hin]; [by compute|]);
      by apply elem_of_nil in Hin.
  - intros path Hin. rewrite convert_all_stock_files_disk. apply convert_each_frame.
    repeat (apply elem_of_cons in Hin as [->|Hin];
            [by repeat (apply Forall_cons; split; [by compute|])|]).
    by apply elem_of_nil in Hin.
Qed.


(** ** The further properties at concrete inputs *)

Lemma data_tv_xlsx_gives_tv_volume :
  has_char "/" "tv" = false
  ∧ has_char "/" "xlsx" = false
  ∧ has_char "." "xlsx" = false
  ∧ has_non_dot "tv" = true
  ∧ csv_name "data/tv.xlsx" "_volume" = "tv_volume_long_format.csv".
Proof.
  repeat (split; [reflexivity|]).
  destruct (csv_name_of_path "data" "tv" "xlsx" "_volume" eq_refl eq_refl eq_refl eq_refl)
    as [Hname _].
  exact Hname.
Defined.

Lemma tv_output_is_not_tv_xlsx :
  has_char "/" "_volume" = false ∧ csv_name "tv.xlsx" "_volume" ≠ "tv.xlsx".
Proof.
  split; [reflexivity|].
  destruct (csv_name_is_not_the_input "tv.xlsx" "_volume" eq_refl) as [Hne _].
  exact Hne.
Defined.

Lemma two_by_two_single_file_run :
  let w := Sample.world_with [("stock price.xlsx", Sample.two_by_two)] in
  disk w !! "stock price.xlsx" = Some (inl Sample.two_by_two)
  ∧ @melt_labels_ok Sample.IntValues (Str "Period") [Str "S1"; Str "S2"] "Price" = true
  ∧ @open_error _ Sample.SheetFiles "taiwan_stocks_long_format.csv" = None
  ∧ ∃ long_df,
      (convert_wide_to_long_csv "stock price.xlsx" w).1 = inr long_df
      ∧ len long_df = 3
      ∧ disk (convert_wide_to_long_csv "stock price.xlsx" w).2
          !! "taiwan_stocks_long_format.csv" = Some (csv_of long_df).
Proof.
  intros w.
  assert (Hdisk : disk w !! "stock price.xlsx" = Some (inl Sample.two_by_two)) by reflexivity.
  split; [exact Hdisk|]. split; [reflexivity|]. split; [reflexivity|].
  destruct (single_file_converter_result Sample.IntValues Sample.SheetFiles
              "stock price.xlsx" w (inl Sample.two_by_two) Sample.two_by_two
              (Str "Period") [Str "S1"; Str "S2"] Hdisk eq_refl eq_refl eq_refl
              eq_refl eq_refl eq_refl)
    as (w' & Hrun & _ & _ & Hout & _).
  eexists. rewrite Hrun. split; [reflexivity|]. split; [reflexivity|exact Hout].
Defined.

Lemma absent_and_empty_sheets_raise :
  let absent := Sample.world_with [] in
  let empty := Sample.world_with [("tv.xlsx", Cases.no_columns)] in
  disk absent !! "tv.xlsx" = None
  ∧ convert_stock_file_to_long "tv.xlsx" "_volume" "Volume" absent
    = (inl (@FileNotFoundError _ Sample.SheetFiles "tv.xlsx"), absent)
  ∧ disk empty !! "tv.xlsx" = Some (inl Cases.no_columns)
  ∧ convert_stock_file_to_long "tv.xlsx" "_volume" "Volume" empty = (inl IndexError, empty).
Proof.
  intros absent empty.
  destruct (early_failures_write_nothing Sample.IntValues Sample.SheetFiles
              "tv.xlsx" "_volume" "Volume" absent) as (Habsent & _).
  destruct (early_failures_write_nothing Sample.IntValues Sample.SheetFiles
              "tv.xlsx" "_volume" "Volume" empty) as (_ & _ & Hempty & _).
  split; [reflexivity|]. split; [exact (Habsent eq_refl)|]. split; [reflexivity|].
  exact (Hempty (inl Cases.no_columns) Cases.no_columns eq_refl eq_refl eq_refl).
Defined.

Lemma five_of_six_output_bound :
  let w := Sample.world_with [("tv.xlsx", Sample.five_of_six)] in
  let long_df := general_long Sample.five_of_six (Str "Date") [Str "2330"] "Volume" in
  disk w !! "tv.xlsx" = Some (inl Sample.five_of_six)
  ∧ @melt_labels_ok Sample.IntValues (Str "Date") [Str "2330"] "Volume" = true
  ∧ @open_error _ Sample.SheetFiles (csv_name "tv.xlsx" "_volume") = None
  ∧ len long_df ≤ 6 * 1
  ∧ ∀ r, r ∈ records long_df → Value r ≠ NA.
Proof.
  intros w long_df.
  assert (Hdisk : disk w !! "tv.xlsx" = Some (inl Sample.five_of_six)) by reflexivity.
  split; [exact Hdisk|]. split; [reflexivity|]. split; [reflexivity|].
  destruct (general_pipeline_output Sample.IntValues Sample.SheetFiles
              "tv.xlsx" "_volume" "Volume" w (inl Sample.five_of_six) Sample.five_of_six
              (Str "Date") [Str "2330"] Hdisk eq_refl eq_refl eq_refl
              eq_refl eq_refl eq_refl)
    as (w' & _ & _ & _ & _ & _ & Hlen & Hall).
  split; [exact Hlen|]. intros r Hr. exact (proj1 (Hall r Hr)).
Defined.

Lemma numeric_sheet_same_result :
  let w := Sample.world_with [("stock price.xlsx", Cases.numeric_sheet)] in
  (∀ c df, disk w !! "stock price.xlsx" = Some c → read_sheet c = inr df →
           melt_dtype df ≠ object)
  ∧ @open_error _ Sample.SheetFiles (csv_name "stock price.xlsx" "_prices")
    = @open_error _ Sample.SheetFiles "taiwan_stocks_long_format.csv"
  ∧ (convert_stock_file_to_long "stock price.xlsx" "_prices" "Price" w).1
    = match (convert_wide_to_long_csv "stock price.xlsx" w).1 with
      | inl e => inl e
      | inr long_df => inr (long_df, "stock price_prices_long_format.csv")
      end.
Proof.
  intros w.
  assert (Hdisk : disk w !! "stock price.xlsx" = Some (inl Cases.numeric_sheet))
    by reflexivity.
  assert (Hnum : ∀ c df, disk w !! "stock price.xlsx" = Some c → read_sheet c = inr df →
                         melt_dtype df ≠ object).
  { intros c df Hc Hread. pose proof (eq_trans (eq_sym Hc) Hdisk) as Heq.
    injection Heq as ->. injection Hread as <-. discriminate. }
  split; [exact Hnum|]. split; [reflexivity|].
  exact (numeric_sheet_converters_agree Sample.IntValues Sample.SheetFiles
           "stock price.xlsx" "_prices" w Hnum eq_refl).
Defined.

Lemma five_of_six_converted_twice :
  let w := Sample.world_with [("tv.xlsx", Sample.five_of_six)] in
  let first := convert_stock_file_to_long "tv.xlsx" "_volume" "Volume" w in
  has_char "/" "_volume" = false
  ∧ (convert_stock_file_to_long "tv.xlsx" "_volume" "Volume" first.2).1 = first.1.
Proof.
  intros w first. split; [reflexivity|].
  destruct (rerun_overwrites_with_same Sample.IntValues Sample.SheetFiles
              "tv.xlsx" "_volume" "Volume" w eq_refl) as [Hsame _].
  exact Hsame.
Defined.

Lemma three_of_five_keeps_tv_xlsx :
  Forall (λ config, "tv.xlsx" ≠ csv_name (file config) (suffix config)) files_config
  ∧ disk (convert_all_stock_files files_config Sample.three_of_five).2 !! "tv.xlsx"
    = disk Sample.three_of_five !! "tv.xlsx".
Proof.
  assert (Hall : Forall (λ config, "tv.xlsx" ≠ csv_name (file config) (suffix config))
                   files_config).
  { repeat (apply Forall_cons; split; [discriminate|]). apply Forall_nil_2. }
  split; [exact Hall|].
  destruct (batch_touches_only_outputs Sample.IntValues Sample.SheetFiles
              files_config Sample.three_of_five "tv.xlsx" Hall) as [Hsame _].
  exact Hsame.
Defined.

Lemma three_of_five_outputs_on_disk :
  distinct_outputs files_config = true
  ∧ ∃ results,
      (convert_all_stock_files files_config Sample.three_of_five).1 = inr results
      ∧ ∀ r, r ∈ results → success r = true →
          ∃ name long_df,
            output_file r = Some name
            ∧ rows r = len long_df
            ∧ disk (convert_all_stock_files files_config Sample.three_of_five).2 !! name
              = Some (csv_of long_df).
Proof.
  assert (Hdistinct : distinct_outputs files_config = true) by reflexivity.
  split; [exact Hdistinct|].
  destruct (batch_outputs_are_on_disk Sample.IntValues Sample.SheetFiles
              files_config Sample.three_of_five Hdistinct)
    as (_ & results & w' & Hrun & Hall).
  exists results. rewrite Hrun. split; [reflexivity|exact Hall].
Defined.

Lemma no_announcement_file_no_output :
  let w := Sample.world_with [("book value.xlsx", Sample.quarterly)] in
  disk w !! "announcemnet date.xlsx" = None
  ∧ disk (fix_quarterly_data_files w).2 !! "announcement_dates_fixed.csv" = None
  ∧ console (fix_quarterly_data_files w).2
    = [ ErrorFixing "announcement dates"
          "[Errno 2] No such file or directory: 'announcemnet date.xlsx'";
        FoundPeriods 2 2;
        Fixed 2 ].
Proof.
  intros w. split; [reflexivity|].
  destruct (announcement_failure_writes_nothing Sample.IntValues Sample.SheetFiles w)
    as (_ & _ & Hmissing & _).
  destruct (Hmissing eq_refl) as [Hrun Hdisk].
  split; [rewrite Hdisk; reflexivity|rewrite Hrun; reflexivity].
Defined.

Lemma header_only_announcements :
  let w := Sample.world_with [("announcemnet date.xlsx", Cases.header_only)] in
  disk w !! "announcemnet date.xlsx" = Some (inl Cases.header_only)
  ∧ data Cases.header_only = [ [Str "Period"; Str "1101 X"] ]
  ∧ @melt_labels_ok Sample.IntValues (Str "Period") [Str "1101 X"] "AnnouncementDate" = true
  ∧ @open_error _ Sample.SheetFiles "announcement_dates_fixed.csv" = None
  ∧ disk (fix_quarterly_data_files w).2 !! "announcement_dates_fixed.csv"
    = Some (csv_of {| id_name := Str "Date"; value_name := "AnnouncementDate";
                      lrows := [] |}).
Proof.
  intros w. do 4 (split; [reflexivity|]).
  destruct (header_only_sheet_gives_empty_output Sample.IntValues Sample.SheetFiles w)
    as [Hfirst _].
  exact (Hfirst (inl Cases.header_only) Cases.header_only (Str "Period") [Str "1101 X"]
           eq_refl eq_refl eq_refl eq_refl eq_refl).
Defined.

Lemma quarterly_labels_in_records :
  rectangular Sample.quarterly
  ∧ data Sample.quarterly !! 0 = Some [Str "Period"; Str "1101 X"; Str "1102 Y"]
  ∧ @melt_labels_ok Sample.IntValues (Str "Period") [Str "1101 X"; Str "1102 Y"] "BookValue"
    = true
  ∧ ∃ data_rows melted,
      promote_header Sample.quarterly = inr data_rows
      ∧ melt data_rows (Str "Period") [Str "1101 X"; Str "1102 Y"] "BookValue" = inr melted
      ∧ len (rename_date melted) = 2 * 2.
Proof.
  split; [exact rectangular_quarterly|]. split; [reflexivity|]. split; [reflexivity|].
  destruct (header_labels_reach_the_records Sample.IntValues Sample.quarterly
              (Str "Period") [Str "1101 X"; Str "1102 Y"] "BookValue"
              rectangular_quarterly eq_refl eq_refl)
    as (data_rows & melted & Hhead & _ & Hmelt & Hlen & _).
  exists data_rows, melted. split; [exact Hhead|]. split; [exact Hmelt|exact Hlen].
Defined.

Lemma three_of_three_all_coerced :
  (Z.of_nat (len Cases.clean_column) < 2 ^ 50)%Z
  ∧ 0 < len Cases.clean_column
  ∧ (∀ r, r ∈ lrows Cases.clean_column → parseable r = true)
  ∧ len (clean_numeric object Cases.clean_column) = 3.
Proof.
  assert (Hsize : (Z.of_nat (len Cases.clean_column) < 2 ^ 50)%Z) by reflexivity.
  assert (Hpos : 0 < len Cases.clean_column) by (apply Nat.ltb_lt; reflexivity).
  assert (Hparse : ∀ r, r ∈ lrows Cases.clean_column → parseable r = true).
  { intros r Hin. apply list_elem_of_In in Hin.
    destruct Hin as [<-|[<-|[<-|[]]]]; reflexivity. }
  split; [exact Hsize|]. split; [exact Hpos|]. split; [exact Hparse|].
  destruct (uniform_columns Sample.IntValues Cases.clean_column Hsize) as [Hall _].
  exact (proj2 (Hall Hpos Hparse)).
Defined.

Lemma comma_only_leaves_empty_text :
  let filtered := sentinel_filter Cases.comma_only in
  let out := clean_numeric object filtered in
  exceeds_threshold (length (List.filter parseable (lrows filtered))) (len filtered) = false
  ∧ sentinel_filter out ≠ out.
Proof.
  intros filtered out. split; [reflexivity|].
  destruct (sentinels_in_the_output Sample.IntValues object Cases.comma_only)
    as (_ & _ & Habandoned).
  intros Hfix.
  destruct (proj1 (Habandoned eq_refl eq_refl) Hfix
              (0, {| Date := Str "d1"; Stock := Str "2330"; Value := Str "," |}))
    as [_ Hne].
  - apply list_elem_of_In. left. reflexivity.
  - apply Hne. reflexivity.
Defined.

Lemma batch_inputs_verified :
  (∀ long_df, id_name long_df = Str "Date" →
     value_name long_df ∈ ["Volume"; "MarketCap"] →
     ∃ df, @read_csv_content _ _ Cases.SheetReader (csv_of long_df) = inr df
           ∧ columns df = [Str "Date"; Str "Stock"; Str (value_name long_df)]
           ∧ length (data df) = len long_df)
  ∧ ∃ tv cap,
      @verify_daily_files _ _ Cases.SheetReader
        (convert_all_stock_files files_config Cases.batch_inputs).2
      = Verifying
        :: @table_report _ _ Cases.SheetReader "tv_volume_long_format.csv" "Volume" tv
        ++ @table_report _ _ Cases.SheetReader
             "mkt cap_market_cap_long_format.csv" "MarketCap" cap.
Proof.
  assert (Hreader : ∀ long_df, id_name long_df = Str "Date" →
     value_name long_df ∈ ["Volume"; "MarketCap"] →
     ∃ df, @read_csv_content _ _ Cases.SheetReader (csv_of long_df) = inr df
           ∧ columns df = [Str "Date"; Str "Stock"; Str (value_name long_df)]
           ∧ length (data df) = len long_df).
  { intros long_df Hid _. exists (csv_table long_df). split; [reflexivity|].
    split; [simpl; by rewrite Hid|]. simpl. rewrite length_fmap.
    unfold records, len. by rewrite length_fmap. }
  split; [exact Hreader|].
  destruct (verification_after_the_batch Sample.IntValues Sample.SheetFiles
              Cases.SheetReader Cases.batch_inputs _ _ eq_refl eq_refl Hreader
              eq_refl eq_refl)
    as (results & w' & tv & cap & Hrun & _ & _ & Hverify).
  exists tv, cap. rewrite Hrun. exact Hverify.
Defined.

Lemma cap_only_reports_tv_not_found :
  let w := Sample.world_with [("mkt cap.xlsx", Sample.two_by_two)] in
  let w' := (convert_all_stock_files files_config w).2 in
  disk w !! "tv.xlsx" = None
  ∧ disk w !! "tv_volume_long_format.csv" = None
  ∧ @verify_daily_files _ _ Cases.SheetReader w'
    = Verifying :: CheckNotFound "tv_volume_long_format.csv"
                :: @check_file _ _ Cases.SheetReader w' "mkt cap_market_cap_long_format.csv".
Proof.
  intros w w'. split; [reflexivity|]. split; [reflexivity|].
  destruct (verification_of_a_missing_input Sample.IntValues Sample.SheetFiles
              Cases.SheetReader w eq_refl) as [_ Hnone].
  exact (Hnone eq_refl).
Defined.

